(** * A to-do list service over one SQLite table

    Shallow embedding of [src/app.py]: a Flask application whose four JSON
    routes ([GET /api/tasks], [POST /add], [PUT /complete/<id>],
    [DELETE /delete/<id>]) are single SQL statements on the table [tasks],
    together with [init_db], which creates that table when it is absent.

    Conventions of the embedding.
    - A Python [str] is a Rocq [string]; the character numbered [n] stands for
      the code point U+00[n], so the strings covered are those whose code
      points lie below 256.
    - A Python [int] is a [Z].  SQLite stores 64-bit signed integers: binding
      a Python integer outside that range raises [OverflowError], and an
      [AUTOINCREMENT] key that has reached the largest rowid makes [INSERT]
      fail.  Both are written out.
    - The database file is a value of type [database]; a handler is a function
      from the file before the request to the outcome of the request and the
      file after it.  An exception that escapes a handler is the outcome
      [Raise], which Flask answers with status 500.
    - [CURRENT_TIMESTAMP] is read from the clock by the store; the reading is
      an explicit argument [now] of the insert.
    - The body of a request is the JSON value [request.get_json] returns.
      What Flask turns away before a handler runs (a path that matches no
      route, a body that is not JSON) is not part of the embedding. *)

From Stdlib Require Import ZArith List String Ascii Bool Lia.
From Stdlib Require Import Sorted Permutation.
Import ListNotations.

Open Scope string_scope.
Open Scope list_scope.
Open Scope Z_scope.

(** ** Python strings: [str.strip] *)

Module PyStr.

(** [str.isspace] on one character, for code points below 256: the
    controls U+0009..U+000D and U+001C..U+001F, the space, U+0085 and
    U+00A0. *)
Definition isspace (c : ascii) : bool :=
  let n := N_of_ascii c in
  ((9 <=? n) && (n <=? 13) || (28 <=? n) && (n <=? 32)
   || (n =? 133) || (n =? 160))%N.

(** [s.lstrip()]: drop the leading whitespace. *)
Fixpoint lstrip (s : string) : string :=
  match s with
  | EmptyString => EmptyString
  | String c s' => if isspace c then lstrip s' else s
  end.

(** [s.rstrip()]: drop the trailing whitespace. *)
Fixpoint rstrip (s : string) : string :=
  match s with
  | EmptyString => EmptyString
  | String c s' =>
      match rstrip s' with
      | EmptyString => if isspace c then EmptyString else String c EmptyString
      | r => String c r
      end
  end.

(** [s.strip()]. *)
Definition strip (s : string) : string := rstrip (lstrip s).

(** First and last character of a string, when it has one. *)
Definition first_char (s : string) : option ascii :=
  match s with
  | EmptyString => None
  | String c _ => Some c
  end.

Fixpoint last_char (s : string) : option ascii :=
  match s with
  | EmptyString => None
  | String c EmptyString => Some c
  | String _ s' => last_char s'
  end.

Definition is_blank (o : option ascii) : bool :=
  match o with
  | None => false
  | Some c => isspace c
  end.

(** A string of whitespace characters only; the empty string is one. *)
Fixpoint all_space (s : string) : bool :=
  match s with
  | EmptyString => true
  | String c s' => isspace c && all_space s'
  end.

(** A string carries surrounding whitespace when its first or its last
    character is a whitespace character. *)
Definition surrounded (s : string) : bool :=
  is_blank (first_char s) || is_blank (last_char s).

End PyStr.

(** ** JSON values, as [request.get_json] yields and [jsonify] takes them *)

#[local] Unset Elimination Schemes.
Inductive json : Type :=
| JNull
| JBool (b : bool)
| JNumber (z : Z)
| JString (s : string)
| JArray (l : list json)
| JObject (m : list (string * json)).
#[local] Set Elimination Schemes.

(** Lookup in the dictionary built from a JSON object: of several members
    with one name the last one is kept. *)
Fixpoint dict_lookup (key : string) (m : list (string * json)) : option json :=
  match m with
  | [] => None
  | (k, v) :: m' =>
      match dict_lookup key m' with
      | Some w => Some w
      | None => if String.eqb k key then Some v else None
      end
  end.

(** ** Outcomes *)

Inductive exn : Type :=
| OperationalError   (* no such table, or the key sequence is exhausted *)
| OverflowError      (* Python int too large to convert to SQLite INTEGER *)
| AttributeError     (* [.get] or [.strip] on a value that has none *)
| TypeError.         (* subscripting [None] *)

Inductive result (A : Type) : Type :=
| Ok (a : A)
| Raise (e : exn).
Arguments Ok {A} a.
Arguments Raise {A} e.

Record response : Type := Response { body : json; status : Z }.

(** The status a client sees: an escaped exception is a server error. *)
Definition http_status (r : result response) : Z :=
  match r with
  | Ok resp => status resp
  | Raise _ => 500
  end.

(** ** The store *)

(** A value of the column [completed]: the column is nullable and of numeric
    affinity; the handlers bind Python booleans, which are stored as the
    integers 0 and 1. *)
Inductive sqlvalue : Type :=
| SqlNull
| SqlInteger (z : Z).

(** One row of [tasks]. *)
Record task : Type := Task {
  id : Z;
  description : string;
  completed : sqlvalue;
  created_at : string
}.

(** The table: its rows in scan order and its entry in [sqlite_sequence]
    (0 while there is none), the largest key ever handed out. *)
Record table : Type := Table { rows : list task; seq : Z }.

(** The database file: the table [tasks], once it has been created. *)
Record database : Type := Database { tasks : option table }.

Definition store (t : table) : database := Database (Some t).

Definition MAX_ROWID : Z := 2 ^ 63 - 1.
Definition MIN_ROWID : Z := - 2 ^ 63.

Definition in_int64 (z : Z) : bool := (MIN_ROWID <=? z) && (z <=? MAX_ROWID).

(** Python's [bool(v)] on a fetched value. *)
Definition py_bool (v : sqlvalue) : bool :=
  match v with
  | SqlNull => false
  | SqlInteger z => negb (z =? 0)
  end.

(** The value a Python [bool] parameter is stored as. *)
Definition bind_bool (b : bool) : sqlvalue := SqlInteger (if b then 1 else 0).

(** *** Statements on the table *)

(** [SELECT * FROM tasks WHERE id = ?] followed by [fetchone]. *)
Definition select_by_id (k : Z) (t : table) : option task :=
  find (fun r => id r =? k) (rows t).

(** [UPDATE tasks SET completed = ? WHERE id = ?]. *)
Definition update_completed (v : sqlvalue) (k : Z) (t : table) : table :=
  Table (map (fun r => if id r =? k
                       then Task (id r) (description r) v (created_at r)
                       else r) (rows t))
        (seq t).

(** [DELETE FROM tasks WHERE id = ?]; [sqlite_sequence] is left alone. *)
Definition delete_by_id (k : Z) (t : table) : table :=
  Table (filter (fun r => negb (id r =? k)) (rows t)) (seq t).

(** The largest key present. *)
Fixpoint max_rowid (rs : list task) : option Z :=
  match rs with
  | [] => None
  | r :: rs' =>
      match max_rowid rs' with
      | None => Some (id r)
      | Some m => Some (Z.max (id r) m)
      end
  end.

(** The key of the next row of an [AUTOINCREMENT] table: one more than the
    largest key present (1 in an empty table), and more than the largest key
    ever handed out; none once the largest rowid has been reached. *)
Definition new_rowid (t : table) : option Z :=
  match (match max_rowid (rows t) with
         | None => Some 1
         | Some m => if MAX_ROWID <=? m then None else Some (m + 1)
         end) with
  | None => None
  | Some v => if seq t =? MAX_ROWID then None else Some (Z.max v (seq t + 1))
  end.

(** [INSERT INTO tasks (description, completed) VALUES (?, ?)]: the key is
    generated, [created_at] takes its default, the clock reading [now]. *)
Definition insert_task (d : string) (v : sqlvalue) (now : string) (t : table)
  : option (Z * table) :=
  match new_rowid t with
  | None => None
  | Some k => Some (k, Table (rows t ++ [Task k d v now]) k)
  end.

(** *** [ORDER BY created_at DESC] *)

(** Timestamps are text and are compared as text.  [insert_desc r l] puts
    the row [r] into [l], which is in descending order of [created_at],
    ahead of the first row that is not later than [r]. *)
Fixpoint insert_desc (r : task) (l : list task) : list task :=
  match l with
  | [] => [r]
  | x :: l' =>
      if String.leb (created_at x) (created_at r)
      then r :: l
      else x :: insert_desc r l'
  end.

(** [SELECT * FROM tasks ORDER BY created_at DESC] followed by [fetchall].
    The statement promises no order among rows of equal [created_at]; the
    sort here leaves them in scan order. *)
Definition select_all_desc (t : table) : list task :=
  fold_right insert_desc [] (rows t).

(** ** Connections and the statements executed on them *)

(** A connection sees the file as last committed and holds its own
    uncommitted changes on top of it. *)
Record connection : Type := Connection { persisted : database; working : database }.

(** Code that runs on a connection and may raise. *)
Definition sql (A : Type) : Type := connection -> result A * connection.

Definition ret {A : Type} (a : A) : sql A := fun c => (Ok a, c).

Definition raise {A : Type} (e : exn) : sql A := fun c => (Raise e, c).

Definition bind {A B : Type} (m : sql A) (k : A -> sql B) : sql B :=
  fun c =>
    match m c with
    | (Ok a, c') => k a c'
    | (Raise e, c') => (Raise e, c')
    end.

Notation "x <- m ;; k" := (bind m (fun x => k))
  (at level 61, m at next level, right associativity).
Notation "m ;; k" := (bind m (fun _ => k))
  (at level 61, right associativity).

(** Preparing a statement that names [tasks] fails when the table is absent. *)
Definition prepare : sql table :=
  fun c =>
    match tasks (working c) with
    | Some t => (Ok t, c)
    | None => (Raise OperationalError, c)
    end.

(** Binding a Python integer parameter. *)
Definition bind_int (z : Z) : sql Z :=
  if in_int64 z then ret z else raise OverflowError.

Definition write (t : table) : sql unit :=
  fun c => (Ok tt, Connection (persisted c) (store t)).

(** [cursor.execute('SELECT * FROM tasks WHERE id = ?', (k,)).fetchone()]. *)
Definition fetchone_by_id (k : Z) : sql (option task) :=
  t <- prepare ;;
  k' <- bind_int k ;;
  ret (select_by_id k' t).

(** [conn.execute('SELECT * FROM tasks ORDER BY created_at DESC').fetchall()]. *)
Definition fetchall_desc : sql (list task) :=
  t <- prepare ;;
  ret (select_all_desc t).

(** [cursor.execute('INSERT INTO tasks (description, completed) VALUES (?, ?)',
    (d, b))], yielding [cursor.lastrowid]. *)
Definition execute_insert (d : string) (b : bool) (now : string) : sql Z :=
  t <- prepare ;;
  match insert_task d (bind_bool b) now t with
  | None => raise OperationalError
  | Some (k, t') => write t' ;; ret k
  end.

(** [cursor.execute('UPDATE tasks SET completed = ? WHERE id = ?', (b, k))]. *)
Definition execute_update (b : bool) (k : Z) : sql unit :=
  t <- prepare ;;
  k' <- bind_int k ;;
  write (update_completed (bind_bool b) k' t).

(** [cursor.execute('DELETE FROM tasks WHERE id = ?', (k,))]. *)
Definition execute_delete (k : Z) : sql unit :=
  t <- prepare ;;
  k' <- bind_int k ;;
  write (delete_by_id k' t).

(** [CREATE TABLE IF NOT EXISTS tasks (...)]. *)
Definition execute_create_table : sql unit :=
  fun c =>
    match tasks (working c) with
    | Some _ => (Ok tt, c)
    | None => (Ok tt, Connection (persisted c) (store (Table [] 0)))
    end.

(** [conn.commit()]. *)
Definition commit : sql unit :=
  fun c => (Ok tt, Connection (working c) (working c)).

(** [conn.close()]: what was not committed is rolled back. *)
Definition close : sql unit :=
  fun c => (Ok tt, Connection (persisted c) (persisted c)).

(** [sqlite3.connect(DATABASE)] on the file [file]. *)
Definition get_db_connection (file : database) : connection :=
  Connection file file.

(** Run code on a fresh connection; the file afterwards is what was
    committed. *)
Definition on_connection {A : Type} (m : sql A) (file : database)
  : result A * database :=
  let (r, c) := m (get_db_connection file) in (r, persisted c).

(** ** The application *)

Definition init_db (file : database) : result unit * database :=
  on_connection (execute_create_table ;; commit ;; close) file.

(** The dictionary a handler serialises for one row. *)
Definition task_data (r : task) : json :=
  JObject [ ("id", JNumber (id r));
            ("description", JString (description r));
            ("completed", JBool (py_bool (completed r)));
            ("created_at", JString (created_at r)) ].

Definition error_body (msg : string) : json := JObject [("error", JString msg)].

Definition message_body (msg : string) : json := JObject [("message", JString msg)].

(** [row[...]] on the result of [fetchone]: [None] cannot be subscripted. *)
Definition subscript (o : option task) : sql task :=
  match o with
  | Some r => ret r
  | None => raise TypeError
  end.

(** [GET /api/tasks]. *)
Definition get_tasks (file : database) : result response * database :=
  on_connection
    (tasks <- fetchall_desc ;;
     close ;;
     ret (Response (JArray (map task_data tasks)) 200))
    file.

(** [data.get('description', '').strip()]. *)
Definition get_description (data : json) : result string :=
  match data with
  | JObject m =>
      match dict_lookup "description" m with
      | None => Ok (PyStr.strip "")
      | Some (JString s) => Ok (PyStr.strip s)
      | Some _ => Raise AttributeError
      end
  | _ => Raise AttributeError
  end.

(** [POST /add] with parsed body [data], served when the clock reads [now]. *)
Definition add_task (data : json) (now : string) (file : database)
  : result response * database :=
  match get_description data with
  | Raise e => (Raise e, file)
  | Ok description =>
      if String.eqb description ""
      then (Ok (Response (error_body "Task description cannot be empty") 400), file)
      else
        on_connection
          (task_id <- execute_insert description false now ;;
           new_task <- fetchone_by_id task_id ;;
           commit ;;
           close ;;
           new_task <- subscript new_task ;;
           ret (Response (task_data new_task) 201))
          file
  end.

(** [PUT /complete/<int:task_id>]. *)
Definition complete_task (task_id : Z) (file : database)
  : result response * database :=
  on_connection
    (task <- fetchone_by_id task_id ;;
     match task with
     | None =>
         close ;;
         ret (Response (error_body "Task not found") 404)
     | Some task =>
         let new_status := negb (py_bool (completed task)) in
         execute_update new_status task_id ;;
         updated_task <- fetchone_by_id task_id ;;
         commit ;;
         close ;;
         updated_task <- subscript updated_task ;;
         ret (Response (task_data updated_task) 200)
     end)
    file.

(** [DELETE /delete/<int:task_id>]. *)
Definition delete_task (task_id : Z) (file : database)
  : result response * database :=
  on_connection
    (task <- fetchone_by_id task_id ;;
     match task with
     | None =>
         close ;;
         ret (Response (error_body "Task not found") 404)
     | Some _ =>
         execute_delete task_id ;;
         commit ;;
         close ;;
         ret (Response (message_body "Task deleted successfully") 200)
     end)
    file.

(** *** Sequences of requests *)

Inductive request : Type :=
| GetTasks
| AddTask (data : json) (now : string)
| CompleteTask (task_id : Z)
| DeleteTask (task_id : Z).

Definition handle (rq : request) (file : database) : result response * database :=
  match rq with
  | GetTasks => get_tasks file
  | AddTask data now => add_task data now file
  | CompleteTask task_id => complete_task task_id file
  | DeleteTask task_id => delete_task task_id file
  end.

(** Serve the requests one after the other; the outcomes come in the order
    of the requests. *)
Fixpoint serve (rqs : list request) (file : database)
  : list (result response) * database :=
  match rqs with
  | [] => ([], file)
  | rq :: rqs' =>
      let (r, file') := handle rq file in
      let (rs, file'') := serve rqs' file' in
      (r :: rs, file'')
  end.

(** ** Vocabulary of the properties *)

(** The file before anything was created in it, and the store right after
    [init_db] on it. *)
Definition blank_file : database := Database None.

Definition empty_table : table := Table [] 0.

(** What the store itself guarantees of a table: the primary key is unique,
    keys are 64-bit integers, and [sqlite_sequence] is no smaller than any key
    present and no larger than the largest rowid. *)
Definition ids (t : table) : list Z := map id (rows t).

Fixpoint distinct (ks : list Z) : bool :=
  match ks with
  | [] => true
  | k :: ks' => negb (existsb (Z.eqb k) ks') && distinct ks'
  end.

Definition valid (t : table) : bool :=
  distinct (ids t)
  && forallb (fun k => (MIN_ROWID <=? k) && (k <=? seq t)) (ids t)
  && (seq t <=? MAX_ROWID).

(** The key [k] was handed out and is gone. *)
Definition retired (k : Z) (t : table) : Prop :=
  valid t = true /\ k <= seq t /\ ~ In k (ids t).

(** The row [r] after a toggle. *)
Definition toggled (r : task) : task :=
  Task (id r) (description r) (bind_bool (negb (py_bool (completed r)))) (created_at r).

(** Descending order of [created_at]: [a] may precede [b]. *)
Definition created_desc (a b : task) : Prop :=
  String.leb (created_at b) (created_at a) = true.

(** A description as [add_task] lets it through: not empty, and without
    whitespace at either end. *)
Definition clean (d : string) : bool :=
  negb (String.eqb d "") && negb (PyStr.surrounded d).

Definition clean_table (t : table) : bool :=
  forallb (fun r => clean (description r)) (rows t).

Definition clean_file (file : database) : bool :=
  match tasks file with
  | None => true
  | Some t => clean_table t
  end.

Definition is_delete (rq : request) : bool :=
  match rq with
  | DeleteTask _ => true
  | _ => false
  end.

(** The number of [POST /add] requests answered with 201, given the requests
    and their outcomes side by side. *)
Definition is_created (rq : request) (out : result response) : bool :=
  match rq with
  | AddTask _ _ => http_status out =? 201
  | _ => false
  end.

Fixpoint successful_adds (rqs : list request) (outs : list (result response)) : nat :=
  match rqs, outs with
  | rq :: rqs', out :: outs' =>
      if is_created rq out
      then S (successful_adds rqs' outs')
      else successful_adds rqs' outs'
  | _, _ => O
  end.

(** The member [name] of a JSON object. *)
Definition member (name : string) (j : json) : option json :=
  match j with
  | JObject m => dict_lookup name m
  | _ => None
  end.

(** The key of the task a response reports as created: the [id] member of
    the body of an answer 201. *)
Definition created_id (out : result response) : option Z :=
  match out with
  | Ok resp =>
      if status resp =? 201
      then match member "id" (body resp) with
           | Some (JNumber k) => Some k
           | _ => None
           end
      else None
  | Raise _ => None
  end.

Fixpoint created_ids (outs : list (result response)) : list Z :=
  match outs with
  | [] => []
  | out :: outs' =>
      match created_id out with
      | Some k => k :: created_ids outs'
      | None => created_ids outs'
      end
  end.

(** A body [add_task] cannot read a description from: not an object, or an
    object whose [description] member is present and is not a string. *)
Definition malformed (data : json) : bool :=
  match data with
  | JObject m =>
      match dict_lookup "description" m with
      | None => false
      | Some (JString _) => false
      | Some _ => true
      end
  | _ => true
  end.

(** What the program does when it is started: [init_db], then requests. *)
Definition startup (file : database) : database := snd (init_db file).

(** * Properties *)

(** ** Facts about [strip] *)

Module PyStrFacts.
Import PyStr.

Lemma lstrip_first (s : string) : is_blank (first_char (lstrip s)) = false.
Proof.
  induction s as [|c s IH]; simpl; [reflexivity|].
  destruct (isspace c) eqn:E; simpl; auto.
Qed.

Lemma rstrip_first (s : string) :
  is_blank (first_char s) = false -> is_blank (first_char (rstrip s)) = false.
Proof.
  destruct s as [|c s]; simpl; [reflexivity|]. intros Hc.
  destruct (rstrip s); [rewrite Hc|]; simpl; auto.
Qed.

Lemma rstrip_last (s : string) : is_blank (last_char (rstrip s)) = false.
Proof.
  induction s as [|c s IH]; simpl; [reflexivity|].
  destruct (rstrip s) as [|c' r] eqn:E.
  - destruct (isspace c) eqn:Ec; simpl; auto.
  - exact IH.
Qed.

Lemma rstrip_empty (s : string) :
  rstrip s = "" -> is_blank (first_char s) = false -> s = "".
Proof.
  destruct s as [|c s]; simpl; [reflexivity|].
  destruct (rstrip s); [|discriminate].
  destruct (isspace c); discriminate.
Qed.

(** [strip] leaves nothing exactly of the strings made of whitespace. *)
Lemma strip_empty_iff (s : string) : strip s = "" <-> all_space s = true.
Proof.
  unfold strip. split.
  - intros H. apply rstrip_empty in H; [|apply lstrip_first].
    induction s as [|c s IH]; simpl in *; [reflexivity|].
    destruct (isspace c); [auto|discriminate].
  - induction s as [|c s IH]; simpl; [reflexivity|].
    destruct (isspace c); [auto|discriminate].
Qed.

Lemma strip_not_surrounded (s : string) : surrounded (strip s) = false.
Proof.
  unfold surrounded, strip.
  rewrite rstrip_first by apply lstrip_first.
  rewrite rstrip_last. reflexivity.
Qed.

Lemma lstrip_fixed (s : string) :
  is_blank (first_char s) = false -> lstrip s = s.
Proof. destruct s as [|c s]; simpl; [reflexivity|]. now intros ->. Qed.

Lemma rstrip_fixed (s : string) :
  is_blank (last_char s) = false -> rstrip s = s.
Proof.
  induction s as [|c s IH]; simpl; [reflexivity|].
  destruct s as [|c' s'].
  - simpl. now intros ->.
  - intros H. rewrite (IH H). reflexivity.
Qed.

(** Stripping what is already stripped changes nothing. *)
Lemma strip_idempotent (s : string) : strip (strip s) = strip s.
Proof.
  pose proof (strip_not_surrounded s) as H.
  unfold surrounded in H. apply orb_false_elim in H. destruct H as [Hf Hl].
  unfold strip at 1. rewrite (lstrip_fixed _ Hf). now apply rstrip_fixed.
Qed.

End PyStrFacts.

(** ** Timestamps are totally preordered *)

Lemma string_leb_trans (s1 s2 s3 : string) :
  String.leb s1 s2 = true -> String.leb s2 s3 = true -> String.leb s1 s3 = true.
Proof.
  unfold String.leb. revert s2 s3.
  induction s1 as [|a s1 IH]; intros [|b s2] [|c s3]; simpl; try easy.
  unfold Ascii.compare.
  destruct (N.compare_spec (N_of_ascii a) (N_of_ascii b)) as [Hab|Hab|Hab];
    destruct (N.compare_spec (N_of_ascii b) (N_of_ascii c)) as [Hbc|Hbc|Hbc];
    destruct (N.compare_spec (N_of_ascii a) (N_of_ascii c)) as [Hac|Hac|Hac];
    try easy; try lia.
  apply IH.
Qed.

Lemma insert_desc_perm (r : task) (l : list task) :
  Permutation (r :: l) (insert_desc r l).
Proof.
  induction l as [|x l IH]; simpl; [reflexivity|].
  destruct (String.leb (created_at x) (created_at r)); [reflexivity|].
  rewrite perm_swap. now apply perm_skip.
Qed.

Lemma insert_desc_sorted (r : task) (l : list task) :
  StronglySorted created_desc l -> StronglySorted created_desc (insert_desc r l).
Proof.
  induction l as [|x l IH]; simpl; intros Hl.
  - repeat constructor.
  - inversion Hl as [|? ? Hl' Hx]; subst.
    destruct (String.leb (created_at x) (created_at r)) eqn:E.
    + constructor; [exact Hl|]. constructor; [exact E|].
      eapply Forall_impl; [|exact Hx]. unfold created_desc. intros y Hy.
      exact (string_leb_trans _ _ _ Hy E).
    + constructor; [now apply IH|].
      apply (Permutation_Forall (insert_desc_perm r l)).
      constructor; [|exact Hx]. unfold created_desc.
      destruct (String.leb_total (created_at x) (created_at r)); congruence.
Qed.

Lemma select_all_desc_sorted (t : table) :
  StronglySorted created_desc (select_all_desc t).
Proof.
  unfold select_all_desc. induction (rows t) as [|r rs IH]; simpl.
  - constructor.
  - now apply insert_desc_sorted.
Qed.

Lemma select_all_desc_perm (t : table) :
  Permutation (rows t) (select_all_desc t).
Proof.
  unfold select_all_desc. induction (rows t) as [|r rs IH]; simpl.
  - reflexivity.
  - rewrite <- insert_desc_perm. now apply perm_skip.
Qed.

(** ** Facts about the statements *)

Lemma distinct_NoDup (ks : list Z) : distinct ks = true <-> NoDup ks.
Proof.
  induction ks as [|k ks IH]; simpl.
  - split; [constructor|reflexivity].
  - rewrite andb_true_iff, negb_true_iff, IH. split.
    + intros [Hk Hks]. constructor; [|exact Hks].
      intros Hin. assert (existsb (Z.eqb k) ks = true) as E.
      { apply existsb_exists. exists k. split; [exact Hin|apply Z.eqb_refl]. }
      congruence.
    + intros H. inversion H as [|? ? Hk Hks]; subst. split; [|exact Hks].
      destruct (existsb (Z.eqb k) ks) eqn:E; [|reflexivity].
      apply existsb_exists in E. destruct E as [x [Hx Hkx]].
      apply Z.eqb_eq in Hkx. subst x. contradiction.
Qed.

Lemma valid_spec (t : table) :
  valid t = true <->
  NoDup (ids t)
  /\ (forall k, In k (ids t) -> MIN_ROWID <= k <= seq t)
  /\ seq t <= MAX_ROWID.
Proof.
  unfold valid. rewrite !andb_true_iff, distinct_NoDup, forallb_forall, Z.leb_le.
  split.
  - intros [[Hd Hb] Hs]. split; [exact Hd|split; [|exact Hs]].
    intros k Hk. specialize (Hb k Hk). apply andb_true_iff in Hb. lia.
  - intros [Hd [Hb Hs]]. split; [split; [exact Hd|]|exact Hs].
    intros k Hk. specialize (Hb k Hk). apply andb_true_iff. lia.
Qed.

Lemma in_int64_spec (z : Z) : in_int64 z = true <-> MIN_ROWID <= z <= MAX_ROWID.
Proof. unfold in_int64. rewrite andb_true_iff, !Z.leb_le. reflexivity. Qed.

Lemma valid_in_int64 (t : table) (r : task) :
  valid t = true -> In r (rows t) -> in_int64 (id r) = true.
Proof.
  intros Hv Hr. apply valid_spec in Hv. destruct Hv as [_ [Hb Hs]].
  apply in_int64_spec. specialize (Hb (id r) (in_map id _ _ Hr)). lia.
Qed.

Lemma select_by_id_some (k : Z) (t : table) (r : task) :
  select_by_id k t = Some r -> In r (rows t) /\ id r = k.
Proof.
  unfold select_by_id. intros H. apply find_some in H.
  destruct H as [Hin Hk]. apply Z.eqb_eq in Hk. auto.
Qed.

Lemma select_by_id_none (k : Z) (t : table) :
  select_by_id k t = None <-> ~ In k (ids t).
Proof.
  unfold select_by_id, ids. induction (rows t) as [|r rs IH]; simpl.
  - tauto.
  - destruct (id r =? k) eqn:E.
    + apply Z.eqb_eq in E. split; [discriminate|]. intros H. exfalso. auto.
    + apply Z.eqb_neq in E. rewrite IH. tauto.
Qed.

(** Under a unique key, the row found under a key is the row stored. *)
Lemma select_by_id_present (t : table) (r : task) :
  NoDup (ids t) -> In r (rows t) -> select_by_id (id r) t = Some r.
Proof.
  unfold select_by_id, ids. induction (rows t) as [|x rs IH]; simpl; [tauto|].
  intros Hnd [Hx|Hr]; inversion Hnd as [|? ? Hnotin Hnd']; subst.
  - now rewrite Z.eqb_refl.
  - destruct (id x =? id r) eqn:E; [|auto].
    apply Z.eqb_eq in E. exfalso. apply Hnotin. rewrite E. now apply in_map.
Qed.

Lemma ids_update (v : sqlvalue) (k : Z) (t : table) :
  ids (update_completed v k t) = ids t.
Proof.
  unfold ids, update_completed. simpl. rewrite map_map.
  apply map_ext. intros r. now destruct (id r =? k).
Qed.

Lemma select_update (v : sqlvalue) (k : Z) (t : table) (r : task) :
  select_by_id k t = Some r ->
  select_by_id k (update_completed v k t)
  = Some (Task (id r) (description r) v (created_at r)).
Proof.
  unfold select_by_id, update_completed. simpl.
  induction (rows t) as [|x rs IH]; simpl; [discriminate|].
  destruct (id x =? k) eqn:E; simpl.
  - rewrite E. now intros [= ->].
  - rewrite E. exact IH.
Qed.

Lemma select_update_other (v : sqlvalue) (k k' : Z) (t : table) :
  k' <> k ->
  select_by_id k' (update_completed v k t) = select_by_id k' t.
Proof.
  intros Hk. unfold select_by_id, update_completed. simpl.
  induction (rows t) as [|x rs IH]; simpl; [reflexivity|].
  destruct (id x =? k) eqn:E; simpl; [|now rewrite IH].
  apply Z.eqb_eq in E. rewrite IH.
  destruct (id x =? k') eqn:E'; [|reflexivity].
  apply Z.eqb_eq in E'. congruence.
Qed.

Lemma ids_delete (k : Z) (t : table) :
  ids (delete_by_id k t) = filter (fun x => negb (x =? k)) (ids t).
Proof.
  unfold ids, delete_by_id. simpl.
  induction (rows t) as [|r rs IH]; simpl; [reflexivity|].
  destruct (id r =? k); simpl; now rewrite IH.
Qed.

Lemma delete_absent (k : Z) (t : table) : ~ In k (ids (delete_by_id k t)).
Proof.
  rewrite ids_delete, filter_In. intros [_ H].
  now rewrite Z.eqb_refl in H.
Qed.

Lemma max_rowid_bound (rs : list task) (m : Z) :
  max_rowid rs = Some m ->
  In m (map id rs) /\ forall r, In r rs -> id r <= m.
Proof.
  revert m. induction rs as [|x rs IH]; simpl; [discriminate|].
  intros m. destruct (max_rowid rs) as [m'|] eqn:E.
  - intros [= <-]. destruct (IH m' eq_refl) as [Hin Hle]. split.
    + destruct (Z.max_spec (id x) m') as [[_ ->]|[_ ->]]; auto.
    + intros r [<-|Hr]; [lia|]. specialize (Hle r Hr). lia.
  - intros [= <-]. destruct rs as [|y rs]; [|simpl in E; destruct (max_rowid rs); discriminate].
    split; [auto|]. intros r [<-|[]]. lia.
Qed.

Lemma max_rowid_none (rs : list task) : max_rowid rs = None -> rs = [].
Proof. destruct rs as [|x rs]; simpl; [reflexivity|]. destruct (max_rowid rs); discriminate. Qed.

(** A generated key is larger than every key present and than every key
    handed out before. *)
Lemma new_rowid_fresh (t : table) (k : Z) :
  new_rowid t = Some k ->
  seq t < k /\ forall r, In r (rows t) -> id r < k.
Proof.
  unfold new_rowid. destruct (max_rowid (rows t)) as [m|] eqn:E.
  - destruct (MAX_ROWID <=? m); [discriminate|].
    destruct (seq t =? MAX_ROWID); [discriminate|]. intros [= <-].
    split; [lia|]. intros r Hr.
    destruct (max_rowid_bound _ _ E) as [_ Hle]. specialize (Hle r Hr). lia.
  - destruct (seq t =? MAX_ROWID); [discriminate|]. intros [= <-].
    apply max_rowid_none in E. rewrite E. split; [lia|]. intros r [].
Qed.

Lemma new_rowid_in_range (t : table) (k : Z) :
  valid t = true -> new_rowid t = Some k -> 1 + MIN_ROWID <= k <= MAX_ROWID.
Proof.
  intros Hv. apply valid_spec in Hv. destruct Hv as [_ [Hb Hs]].
  unfold new_rowid. destruct (max_rowid (rows t)) as [m|] eqn:E.
  - destruct (Z.leb_spec MAX_ROWID m); [discriminate|].
    destruct (Z.eqb_spec (seq t) MAX_ROWID); [discriminate|]. intros [= <-].
    destruct (max_rowid_bound _ _ E) as [Hin _]. specialize (Hb m Hin). lia.
  - destruct (Z.eqb_spec (seq t) MAX_ROWID); [discriminate|]. intros [= <-].
    unfold MIN_ROWID, MAX_ROWID in *. lia.
Qed.

(** A key is generated as long as the sequence has not reached the largest
    rowid. *)
Lemma new_rowid_available (t : table) :
  valid t = true -> seq t <> MAX_ROWID -> exists k, new_rowid t = Some k.
Proof.
  intros Hv Hs. apply valid_spec in Hv. destruct Hv as [_ [Hb Hm]].
  unfold new_rowid. destruct (max_rowid (rows t)) as [m|] eqn:E.
  - destruct (max_rowid_bound _ _ E) as [Hin _]. specialize (Hb m Hin).
    destruct (Z.leb_spec MAX_ROWID m); [lia|].
    destruct (Z.eqb_spec (seq t) MAX_ROWID); [contradiction|]. eauto.
  - destruct (Z.eqb_spec (seq t) MAX_ROWID); [contradiction|]. eauto.
Qed.

Lemma select_inserted (t : table) (r : task) :
  (forall x, In x (rows t) -> id x < id r) ->
  select_by_id (id r) (Table (rows t ++ [r]) (id r)) = Some r.
Proof.
  unfold select_by_id. simpl. induction (rows t) as [|x rs IH]; simpl; intros H.
  - now rewrite Z.eqb_refl.
  - destruct (Z.eqb_spec (id x) (id r)) as [E|E].
    + specialize (H x (or_introl eq_refl)). lia.
    + apply IH. intros y Hy. apply H. now right.
Qed.

(** *** The guarantees of the store are kept by every statement *)

Lemma valid_update (v : sqlvalue) (k : Z) (t : table) :
  valid (update_completed v k t) = valid t.
Proof. unfold valid. now rewrite ids_update. Qed.

Lemma valid_delete (k : Z) (t : table) :
  valid t = true -> valid (delete_by_id k t) = true.
Proof.
  rewrite !valid_spec, ids_delete. simpl. intros [Hd [Hb Hs]].
  split; [|split].
  - now apply NoDup_filter.
  - intros x Hx. apply filter_In in Hx. destruct Hx as [Hx _]. now apply Hb.
  - exact Hs.
Qed.

Lemma valid_insert (d : string) (v : sqlvalue) (now : string) (t t' : table) (k : Z) :
  valid t = true -> insert_task d v now t = Some (k, t') -> valid t' = true.
Proof.
  intros Hv. unfold insert_task. destruct (new_rowid t) as [k'|] eqn:E; [|discriminate].
  intros [= <- <-].
  pose proof (new_rowid_in_range _ _ Hv E) as Hr.
  destruct (new_rowid_fresh _ _ E) as [Hseq Hlt].
  apply valid_spec in Hv. destruct Hv as [Hd [Hb Hs]].
  apply valid_spec. unfold ids in *. simpl. rewrite map_app. simpl.
  split; [|split].
  - apply NoDup_app; [exact Hd|repeat constructor; auto|].
    intros x Hx [<-|[]]. apply in_map_iff in Hx. destruct Hx as [r [Hxr Hin]].
    specialize (Hlt r Hin). lia.
  - intros x Hx. apply in_app_or in Hx. destruct Hx as [Hx|[<-|[]]]; [|lia].
    specialize (Hb x Hx). lia.
  - lia.
Qed.

(** ** The handlers on a store whose table exists *)

Lemma get_tasks_store (t : table) :
  get_tasks (store t)
  = (Ok (Response (JArray (map task_data (select_all_desc t))) 200), store t).
Proof. reflexivity. Qed.

Lemma complete_task_store (k : Z) (t : table) :
  complete_task k (store t)
  = if in_int64 k
    then match select_by_id k t with
         | None => (Ok (Response (error_body "Task not found") 404), store t)
         | Some r =>
             (Ok (Response (task_data (toggled r)) 200),
              store (update_completed (completed (toggled r)) k t))
         end
    else (Raise OverflowError, store t).
Proof.
  unfold complete_task, on_connection, fetchone_by_id, execute_update, bind,
    prepare, bind_int, get_db_connection. simpl.
  destruct (in_int64 k) eqn:Hk; simpl; [|reflexivity].
  destruct (select_by_id k t) as [r|] eqn:Hr; simpl; [|reflexivity].
  now rewrite (select_update _ _ _ _ Hr).
Qed.

Lemma delete_task_store (k : Z) (t : table) :
  delete_task k (store t)
  = if in_int64 k
    then match select_by_id k t with
         | None => (Ok (Response (error_body "Task not found") 404), store t)
         | Some _ =>
             (Ok (Response (message_body "Task deleted successfully") 200),
              store (delete_by_id k t))
         end
    else (Raise OverflowError, store t).
Proof.
  unfold delete_task, on_connection, fetchone_by_id, execute_delete, bind,
    prepare, bind_int, get_db_connection. simpl.
  destruct (in_int64 k) eqn:Hk; simpl; [|reflexivity].
  destruct (select_by_id k t) as [r|] eqn:Hr; reflexivity.
Qed.

(** The part of [add_task] that runs once the description was let through. *)
Lemma add_task_store (data : json) (now : string) (t : table) :
  add_task data now (store t)
  = match get_description data with
    | Raise e => (Raise e, store t)
    | Ok d =>
        if String.eqb d ""
        then (Ok (Response (error_body "Task description cannot be empty") 400),
              store t)
        else match insert_task d (bind_bool false) now t with
             | None => (Raise OperationalError, store t)
             | Some (k, t') =>
                 if in_int64 k
                 then match select_by_id k t' with
                      | Some r => (Ok (Response (task_data r) 201), store t')
                      | None => (Raise TypeError, store t')
                      end
                 else (Raise OverflowError, store t)
             end
    end.
Proof.
  unfold add_task. destruct (get_description data) as [d|e]; [|reflexivity].
  destruct (String.eqb d ""); [reflexivity|].
  unfold on_connection, execute_insert, fetchone_by_id, bind, prepare, bind_int,
    get_db_connection. simpl.
  destruct (insert_task d (bind_bool false) now t) as [[k t']|]; simpl; [|reflexivity].
  destruct (in_int64 k); simpl; [|reflexivity].
  destruct (select_by_id k t'); reflexivity.
Qed.

(** On a table the store vouches for, an insert that finds a key is answered
    with the row it stored. *)
Lemma add_task_valid (data : json) (now d : string) (t : table) :
  valid t = true ->
  get_description data = Ok d -> d <> "" ->
  add_task data now (store t)
  = match new_rowid t with
    | None => (Raise OperationalError, store t)
    | Some k =>
        let r := Task k d (SqlInteger 0) now in
        (Ok (Response (task_data r) 201), store (Table (rows t ++ [r]) k))
    end.
Proof.
  intros Hv Hd Hne. rewrite add_task_store, Hd.
  apply String.eqb_neq in Hne. rewrite Hne.
  unfold insert_task. destruct (new_rowid t) as [k|] eqn:E; [|reflexivity].
  pose proof (new_rowid_in_range _ _ Hv E) as Hr.
  assert (in_int64 k = true) as ->. { apply in_int64_spec. lia. }
  destruct (new_rowid_fresh _ _ E) as [_ Hlt].
  pose proof (select_inserted t (Task k d (bind_bool false) now) Hlt) as Hs.
  cbn [id] in Hs. rewrite Hs. reflexivity.
Qed.

(** Without the table every route that reaches the store raises. *)
Lemma handlers_without_table :
  get_tasks blank_file = (Raise OperationalError, blank_file)
  /\ (forall k, complete_task k blank_file = (Raise OperationalError, blank_file))
  /\ (forall k, delete_task k blank_file = (Raise OperationalError, blank_file)).
Proof. repeat split. Qed.

Lemma py_bool_bind_bool (b : bool) : py_bool (bind_bool b) = b.
Proof. now destruct b. Qed.

Lemma member_completed (r : task) :
  member "completed" (task_data r) = Some (JBool (py_bool (completed r))).
Proof. reflexivity. Qed.

(** ** The properties of the specification *)

(** C1. For every task present in the store, one toggle
    ([PUT /complete/<id>]) flips its [completed] value, and a second toggle
    right after the first brings [completed] back to its original value.
    [completed] is the Boolean the service reports, the truth value of what
    is stored. *)
Theorem toggle_flips_and_twice_restores (t : table) (r : task) :
  valid t = true -> In r (rows t) ->
  exists r1 t1 r2 t2,
    complete_task (id r) (store t)
    = (Ok (Response (task_data r1) 200), store t1)
    /\ select_by_id (id r) t1 = Some r1
    /\ py_bool (completed r1) = negb (py_bool (completed r))
    /\ complete_task (id r) (store t1)
       = (Ok (Response (task_data r2) 200), store t2)
    /\ select_by_id (id r) t2 = Some r2
    /\ py_bool (completed r2) = py_bool (completed r).
Proof.
  intros Hv Hr.
  pose proof (valid_in_int64 _ _ Hv Hr) as Hk.
  assert (select_by_id (id r) t = Some r) as Hs.
  { apply select_by_id_present; [|exact Hr]. now apply valid_spec in Hv. }
  set (t1 := update_completed (completed (toggled r)) (id r) t).
  assert (select_by_id (id r) t1 = Some (toggled r)) as Hs1.
  { unfold t1. now rewrite (select_update _ _ _ _ Hs). }
  set (t2 := update_completed (completed (toggled (toggled r))) (id r) t1).
  exists (toggled r), t1, (toggled (toggled r)), t2.
  split; [now rewrite complete_task_store, Hk, Hs|].
  split; [exact Hs1|].
  split; [apply py_bool_bind_bool|].
  split; [now rewrite complete_task_store, Hk, Hs1|].
  split.
  - unfold t2. now rewrite (select_update _ _ _ _ Hs1).
  - simpl. now destruct (py_bool (completed r)).
Qed.

Lemma toggle_flips_and_twice_restores_witness :
  let r := Task 1 "buy milk" (SqlInteger 0) "2024-01-01 10:00:00" in
  let t := Table [r] 1 in
  exists r1 t1 r2 t2,
    complete_task (id r) (store t)
    = (Ok (Response (task_data r1) 200), store t1)
    /\ select_by_id (id r) t1 = Some r1
    /\ py_bool (completed r1) = negb (py_bool (completed r))
    /\ complete_task (id r) (store t1)
       = (Ok (Response (task_data r2) 200), store t2)
    /\ select_by_id (id r) t2 = Some r2
    /\ py_bool (completed r2) = py_bool (completed r).
Proof.
  intros r t. apply (toggle_flips_and_twice_restores t r).
  - reflexivity.
  - simpl. left. reflexivity.
Defined.

(** C2, as the specification states it, fails: the id 2^63 is present in no
    store, yet toggling or deleting it is not answered with 404.  The id does
    not fit the store's 64-bit integers, binding it raises, and the client is
    served a server error. *)
Lemma unknown_id_beyond_int64 :
  ~ In (2 ^ 63) (ids empty_table)
  /\ complete_task (2 ^ 63) (store empty_table) = (Raise OverflowError, store empty_table)
  /\ delete_task (2 ^ 63) (store empty_table) = (Raise OverflowError, store empty_table)
  /\ http_status (fst (complete_task (2 ^ 63) (store empty_table))) <> 404
  /\ http_status (fst (delete_task (2 ^ 63) (store empty_table))) <> 404.
Proof.
  split; [intros []|]. repeat split; vm_compute; discriminate.
Qed.

(** C2, amended.  For every non-negative id below 2^63 that is not present
    in the store, the toggle ([PUT /complete/<id>]) and the delete
    ([DELETE /delete/<id>]) each answer 404 with the body
    [{"error": "Task not found"}] and leave the persisted state unchanged. *)
Theorem unknown_id_not_found (t : table) (k : Z) :
  0 <= k < 2 ^ 63 -> ~ In k (ids t) ->
  complete_task k (store t)
  = (Ok (Response (JObject [("error", JString "Task not found")]) 404), store t)
  /\ delete_task k (store t)
     = (Ok (Response (JObject [("error", JString "Task not found")]) 404), store t).
Proof.
  intros Hk Hn. apply select_by_id_none in Hn.
  assert (in_int64 k = true) as Hk'.
  { apply in_int64_spec. unfold MIN_ROWID, MAX_ROWID. lia. }
  rewrite complete_task_store, delete_task_store, Hk', Hn. split; reflexivity.
Qed.

Lemma unknown_id_not_found_witness :
  let t := Table [Task 1 "buy milk" (SqlInteger 0) "2024-01-01 10:00:00"] 1 in
  complete_task 7 (store t)
  = (Ok (Response (JObject [("error", JString "Task not found")]) 404), store t)
  /\ delete_task 7 (store t)
     = (Ok (Response (JObject [("error", JString "Task not found")]) 404), store t).
Proof.
  intros t. apply (unknown_id_not_found t 7).
  - lia.
  - simpl. lia.
Defined.

(** C3. For every [POST /add] whose description is missing, empty or made
    of whitespace only, the answer is 400 with the body
    [{"error": "Task description cannot be empty"}] and no row is inserted:
    the file is left as it was, whatever it held. *)
Theorem blank_description_rejected
    (m : list (string * json)) (now : string) (file : database) :
  dict_lookup "description" m = None
  \/ (exists s, dict_lookup "description" m = Some (JString s)
                /\ PyStr.all_space s = true) ->
  add_task (JObject m) now file
  = (Ok (Response (JObject [("error", JString "Task description cannot be empty")]) 400),
     file).
Proof.
  intros H. unfold add_task, get_description.
  destruct H as [->|[s [-> Hs]]].
  - reflexivity.
  - apply PyStrFacts.strip_empty_iff in Hs. rewrite Hs. reflexivity.
Qed.

Lemma blank_description_rejected_witness :
  let file := store (Table [Task 1 "buy milk" (SqlInteger 0) "2024-01-01 10:00:00"] 1) in
  add_task (JObject [("description", JString "  ")]) "2024-01-01 10:00:05" file
  = (Ok (Response (JObject [("error", JString "Task description cannot be empty")]) 400),
     file).
Proof.
  intros file. apply blank_description_rejected.
  right. exists "  ". split; reflexivity.
Defined.

(** C8. [init_db] is idempotent: it succeeds whether or not the table
    exists, it leaves an existing table with all its rows as it is, and
    running it twice leaves the file as running it once does. *)
Theorem init_db_idempotent (file : database) :
  fst (init_db file) = Ok tt
  /\ (forall t, init_db (store t) = (Ok tt, store t))
  /\ init_db (snd (init_db file)) = (Ok tt, snd (init_db file)).
Proof.
  destruct file as [[t|]]; repeat split.
Qed.




(** C7. For every task present in the store, the toggle
    ([PUT /complete/<id>]) changes that task's [completed] field and nothing
    else: the row keeps its [id], [description] and [created_at], and every
    other row, the order of the rows and the key sequence are as before. *)
Theorem toggle_changes_only_completed (t : table) (r : task) :
  valid t = true -> In r (rows t) ->
  exists r' before after,
    rows t = before ++ r :: after
    /\ complete_task (id r) (store t)
       = (Ok (Response (task_data r') 200),
          store (Table (before ++ r' :: after) (seq t)))
    /\ id r' = id r
    /\ description r' = description r
    /\ created_at r' = created_at r.
Proof.
  intros Hv Hr.
  pose proof (valid_in_int64 _ _ Hv Hr) as Hk.
  apply valid_spec in Hv. destruct Hv as [Hd _].
  pose proof (select_by_id_present _ _ Hd Hr) as Hs.
  destruct (in_split _ _ Hr) as [before [after E]].
  exists (toggled r), before, after.
  split; [exact E|]. split; [|repeat split].
  rewrite complete_task_store, Hk, Hs. f_equal. f_equal.
  unfold update_completed. f_equal.
  unfold ids in Hd. rewrite E in Hd |- *.
  rewrite map_app in Hd. simpl in Hd.
  assert (forall x, In x before \/ In x after -> (id x =? id r) = false) as Hother.
  { intros x Hx. apply Z.eqb_neq. intros Heq.
    apply NoDup_remove_2 in Hd. apply Hd. rewrite <- Heq.
    apply in_or_app. destruct Hx; [left|right]; now apply in_map. }
  rewrite map_app. simpl. rewrite Z.eqb_refl.
  f_equal; [|f_equal].
  - rewrite <- (map_id before) at 2. apply map_ext_in.
    intros x Hx. now rewrite Hother by auto.
  - rewrite <- (map_id after) at 2. apply map_ext_in.
    intros x Hx. now rewrite Hother by auto.
Qed.

Lemma toggle_changes_only_completed_witness :
  let r1 := Task 1 "buy milk" (SqlInteger 0) "2024-01-01 10:00:00" in
  let r2 := Task 2 "walk the dog" (SqlInteger 1) "2024-01-02 08:30:00" in
  let t := Table [r1; r2] 2 in
  exists r' before after,
    rows t = before ++ r2 :: after
    /\ complete_task (id r2) (store t)
       = (Ok (Response (task_data r') 200),
          store (Table (before ++ r' :: after) (seq t)))
    /\ id r' = id r2
    /\ description r' = description r2
    /\ created_at r' = created_at r2.
Proof.
  intros r1 r2 t. apply (toggle_changes_only_completed t r2).
  - reflexivity.
  - simpl. right. left. reflexivity.
Defined.

(** *** Requests other than deletions never shrink the table *)

Lemma insert_task_rows (d : string) (v : sqlvalue) (now : string) (t t' : table) (k : Z) :
  insert_task d v now t = Some (k, t') ->
  t' = Table (rows t ++ [Task k d v now]) k.
Proof.
  unfold insert_task. destruct (new_rowid t); [|discriminate]. now intros [= <- <-].
Qed.

Lemma select_after_insert (d : string) (v : sqlvalue) (now : string) (t t' : table) (k : Z) :
  insert_task d v now t = Some (k, t') -> select_by_id k t' <> None.
Proof.
  intros H. apply insert_task_rows in H. subst t'.
  rewrite select_by_id_none. unfold ids. simpl. rewrite map_app. simpl.
  intros Hn. apply Hn. apply in_or_app. right. now left.
Qed.

Lemma handle_length (rq : request) (t : table) :
  is_delete rq = false ->
  exists t',
    snd (handle rq (store t)) = store t'
    /\ List.length (rows t')
       = if is_created rq (fst (handle rq (store t)))
         then S (List.length (rows t)) else List.length (rows t).
Proof.
  intros Hrq. destruct rq as [|data now|k|k];
    cbn [handle is_delete is_created] in *; [| | |discriminate].
  - exists t. now rewrite get_tasks_store.
  - rewrite add_task_store.
    destruct (get_description data) as [d|e]; [|now exists t].
    destruct (String.eqb d ""); [now exists t|].
    destruct (insert_task d (bind_bool false) now t) as [[k t']|] eqn:E; [|now exists t].
    destruct (in_int64 k); [|now exists t].
    pose proof (select_after_insert _ _ _ _ _ _ E) as Hs.
    destruct (select_by_id k t') as [r|]; [|contradiction].
    exists t'. split; [reflexivity|]. simpl.
    apply insert_task_rows in E. subst t'. simpl.
    rewrite List.length_app. simpl. lia.
  - rewrite complete_task_store.
    destruct (in_int64 k); [|now exists t].
    destruct (select_by_id k t) as [r|]; [|now exists t].
    eexists. split; [reflexivity|]. simpl. now rewrite List.length_map.
Qed.

Lemma serve_length (rqs : list request) :
  forall (t : table) (outs : list (result response)) (file : database),
  existsb is_delete rqs = false ->
  serve rqs (store t) = (outs, file) ->
  exists t',
    file = store t'
    /\ List.length (rows t') = (List.length (rows t) + successful_adds rqs outs)%nat.
Proof.
  induction rqs as [|rq rqs IH]; intros t outs file Hd Hs; simpl in *.
  - injection Hs as <- <-. exists t. split; [reflexivity|lia].
  - apply orb_false_elim in Hd. destruct Hd as [Hrq Hd].
    destruct (handle_length rq t Hrq) as [t1 [Ht1 Hlen]].
    destruct (handle rq (store t)) as [out file1]. simpl in Ht1, Hlen. subst file1.
    destruct (serve rqs (store t1)) as [outs' file'] eqn:Es.
    injection Hs as <- <-.
    destruct (IH t1 outs' file' Hd Es) as [t' [-> Hlen']].
    exists t'. split; [reflexivity|]. simpl.
    destruct (is_created rq out); lia.
Qed.

Lemma handle_created (rq : request) (t : table) :
  is_delete rq = false ->
  exists t',
    snd (handle rq (store t)) = store t'
    /\ ids t'
       = ids t ++ match created_id (fst (handle rq (store t))) with
                  | Some k => [k]
                  | None => []
                  end.
Proof.
  intros Hrq. destruct rq as [|data now|k|k];
    cbn [handle is_delete] in *; [| | |discriminate].
  - exists t. rewrite get_tasks_store. simpl. now rewrite app_nil_r.
  - rewrite add_task_store.
    destruct (get_description data) as [d|e];
      [|exists t; simpl; now rewrite app_nil_r].
    destruct (String.eqb d ""); [exists t; simpl; now rewrite app_nil_r|].
    destruct (insert_task d (bind_bool false) now t) as [[k t']|] eqn:E;
      [|exists t; simpl; now rewrite app_nil_r].
    destruct (in_int64 k); [|exists t; simpl; now rewrite app_nil_r].
    pose proof (select_after_insert _ _ _ _ _ _ E) as Hs.
    destruct (select_by_id k t') as [r|] eqn:Er; [|contradiction].
    apply select_by_id_some in Er. destruct Er as [_ Hid].
    exists t'. split; [reflexivity|].
    apply insert_task_rows in E. subst t'.
    unfold ids. simpl. rewrite map_app, Hid. reflexivity.
  - rewrite complete_task_store.
    destruct (in_int64 k); [|exists t; simpl; now rewrite app_nil_r].
    destruct (select_by_id k t) as [r|]; [|exists t; simpl; now rewrite app_nil_r].
    eexists. split; [reflexivity|]. rewrite ids_update. simpl. now rewrite app_nil_r.
Qed.

Lemma serve_created (rqs : list request) :
  forall (t : table) (outs : list (result response)) (file : database),
  existsb is_delete rqs = false ->
  serve rqs (store t) = (outs, file) ->
  exists t', file = store t' /\ ids t' = ids t ++ created_ids outs.
Proof.
  induction rqs as [|rq rqs IH]; intros t outs file Hd Hs; simpl in *.
  - injection Hs as <- <-. exists t. simpl. now rewrite app_nil_r.
  - apply orb_false_elim in Hd. destruct Hd as [Hrq Hd].
    destruct (handle_created rq t Hrq) as [t1 [Ht1 Hids]].
    destruct (handle rq (store t)) as [out file1]. simpl in Ht1, Hids. subst file1.
    destruct (serve rqs (store t1)) as [outs' file'] eqn:Es.
    injection Hs as <- <-.
    destruct (IH t1 outs' file' Hd Es) as [t' [-> Hids']].
    exists t'. split; [reflexivity|]. rewrite Hids', Hids. simpl.
    destruct (created_id out); now rewrite <- app_assoc.
Qed.

(** C5. After N successful adds and no delete, starting from an empty
    store, [GET /api/tasks] returns exactly N tasks, in descending order of
    [created_at]; nothing is claimed on the order among equal timestamps.
    The tasks returned are the rows of the store, and these are the tasks the
    adds reported as created, id by id.  Toggles and lists may come in
    between. *)
Theorem list_after_adds
    (t : table) (rqs : list request) (outs : list (result response))
    (file : database) :
  rows t = [] ->
  existsb is_delete rqs = false ->
  serve rqs (store t) = (outs, file) ->
  exists t' l,
    file = store t'
    /\ get_tasks file = (Ok (Response (JArray (map task_data l)) 200), file)
    /\ Permutation l (rows t')
    /\ ids t' = created_ids outs
    /\ List.length l = successful_adds rqs outs
    /\ StronglySorted created_desc l.
Proof.
  intros Hempty Hd Hs.
  destruct (serve_length rqs t outs file Hd Hs) as [t' [-> Hlen]].
  destruct (serve_created rqs t outs (store t') Hd Hs) as [t'' [E Hids]].
  injection E as <-.
  exists t', (select_all_desc t'). split; [reflexivity|].
  split; [apply get_tasks_store|].
  split; [symmetry; apply select_all_desc_perm|].
  split; [rewrite Hids; unfold ids; now rewrite Hempty|].
  split.
  - rewrite <- (Permutation_length (select_all_desc_perm t')), Hlen, Hempty.
    reflexivity.
  - apply select_all_desc_sorted.
Qed.

Lemma list_after_adds_witness :
  let rqs := [ AddTask (JObject [("description", JString "buy milk")]) "2024-01-01 10:00:00";
               AddTask (JObject [("description", JString "   ")]) "2024-01-01 10:00:01";
               CompleteTask 1;
               AddTask (JObject [("description", JString "walk the dog")]) "2024-01-01 09:00:00" ] in
  let run := serve rqs (store empty_table) in
  successful_adds rqs (fst run) = 2%nat
  /\ exists t' l,
       snd run = store t'
       /\ get_tasks (snd run) = (Ok (Response (JArray (map task_data l)) 200), snd run)
       /\ Permutation l (rows t')
       /\ ids t' = created_ids (fst run)
       /\ List.length l = successful_adds rqs (fst run)
       /\ StronglySorted created_desc l.
Proof.
  intros rqs run. split; [reflexivity|].
  apply (list_after_adds empty_table rqs (fst run) (snd run)).
  - reflexivity.
  - reflexivity.
  - reflexivity.
Defined.

(** *** A key at or below the sequence and absent from the table stays absent *)

Lemma task_data_id (r r' : task) : task_data r = task_data r' -> id r = id r'.
Proof. unfold task_data. now intros [= H _]. Qed.

Lemma handle_retired (k : Z) (rq : request) (t : table) :
  retired k t ->
  exists t',
    snd (handle rq (store t)) = store t'
    /\ retired k t'
    /\ forall r', fst (handle rq (store t)) = Ok (Response (task_data r') 201) ->
                  id r' <> k.
Proof.
  intros [Hv [Hk Hn]]. destruct rq as [|data now|j|j]; cbn [handle].
  - exists t. rewrite get_tasks_store. repeat split; auto. discriminate.
  - destruct (get_description data) as [d|e] eqn:Ed.
    + destruct (String.eqb_spec d "") as [Hd|Hd].
      * exists t. rewrite add_task_store, Ed. subst d. simpl.
        repeat split; auto. discriminate.
      * rewrite (add_task_valid data now d t Hv Ed Hd).
        destruct (new_rowid t) as [k'|] eqn:E.
        -- destruct (new_rowid_fresh _ _ E) as [Hseq Hlt].
           eexists. split; [reflexivity|]. split; [split; [|split]|].
           ++ apply (valid_insert d (SqlInteger 0) now t _ k' Hv).
              unfold insert_task. now rewrite E.
           ++ simpl. lia.
           ++ unfold ids. simpl. rewrite map_app. simpl. intros Hin.
              apply in_app_or in Hin. destruct Hin as [Hin|[Hin|[]]]; [auto|lia].
           ++ simpl. intros r' H. assert (task_data (Task k' d (SqlInteger 0) now) = task_data r') as H'
                by congruence.
              apply task_data_id in H'. simpl in H'. lia.
        -- exists t. repeat split; auto. discriminate.
    + exists t. rewrite add_task_store, Ed. repeat split; auto. discriminate.
  - rewrite complete_task_store. destruct (in_int64 j).
    + destruct (select_by_id j t) as [r|].
      * eexists. split; [reflexivity|]. split; [|discriminate].
        unfold retired. rewrite valid_update, ids_update. simpl. auto.
      * exists t. repeat split; auto. discriminate.
    + exists t. repeat split; auto. discriminate.
  - rewrite delete_task_store. destruct (in_int64 j).
    + destruct (select_by_id j t) as [r|].
      * eexists. split; [reflexivity|]. split; [|discriminate].
        split; [now apply valid_delete|]. split; [exact Hk|].
        rewrite ids_delete, filter_In. tauto.
      * exists t. repeat split; auto. discriminate.
    + exists t. repeat split; auto. discriminate.
Qed.

Lemma serve_retired (k : Z) (rqs : list request) :
  forall (t : table) (outs : list (result response)) (file : database),
  retired k t ->
  serve rqs (store t) = (outs, file) ->
  (exists t', file = store t' /\ retired k t')
  /\ forall r', In (Ok (Response (task_data r') 201)) outs -> id r' <> k.
Proof.
  induction rqs as [|rq rqs IH]; intros t outs file Hr Hs; simpl in Hs.
  - injection Hs as <- <-. split; [now exists t|]. intros r' [].
  - destruct (handle_retired k rq t Hr) as [t1 [Ht1 [Hr1 Hout]]].
    destruct (handle rq (store t)) as [out file1]. simpl in Ht1, Hout. subst file1.
    destruct (serve rqs (store t1)) as [outs' file'] eqn:Es.
    injection Hs as <- <-.
    destruct (IH t1 outs' file' Hr1 Es) as [Hfile Houts].
    split; [exact Hfile|].
    intros r' [H|H]; [now apply Hout|now apply Houts].
Qed.

(** C6. For every task present in the store, a successful
    [DELETE /delete/<id>] removes its row for good: whatever requests follow,
    the task is in no later result of [GET /api/tasks], and no task created
    later is given its [id]. *)
Theorem deleted_task_never_returns (t : table) (r : task) :
  valid t = true -> In r (rows t) ->
  exists t',
    delete_task (id r) (store t)
    = (Ok (Response (JObject [("message", JString "Task deleted successfully")]) 200),
       store t')
    /\ forall (rqs : list request) (outs : list (result response)) (file : database),
         serve rqs (store t') = (outs, file) ->
         (exists l,
             get_tasks file = (Ok (Response (JArray (map task_data l)) 200), file)
             /\ ~ In (id r) (map id l))
         /\ (forall r', In (Ok (Response (task_data r') 201)) outs -> id r' <> id r).
Proof.
  intros Hv Hr.
  pose proof (valid_in_int64 _ _ Hv Hr) as Hk.
  assert (retired (id r) (delete_by_id (id r) t)) as Hret.
  { split; [now apply valid_delete|]. split; [|apply delete_absent].
    apply valid_spec in Hv. destruct Hv as [_ [Hb _]].
    specialize (Hb (id r) (in_map id _ _ Hr)). simpl. lia. }
  assert (select_by_id (id r) t = Some r) as Hs.
  { apply select_by_id_present; [|exact Hr]. now apply valid_spec in Hv. }
  exists (delete_by_id (id r) t). split.
  - now rewrite delete_task_store, Hk, Hs.
  - intros rqs outs file Hserve.
    destruct (serve_retired _ rqs _ outs file Hret Hserve) as [[t' [-> Hr']] Houts].
    split; [|exact Houts].
    exists (select_all_desc t'). split; [apply get_tasks_store|].
    destruct Hr' as [_ [_ Hn]]. intros Hin. apply Hn. unfold ids.
    apply in_map_iff in Hin. destruct Hin as [x [Hx Hin]].
    apply in_map_iff. exists x. split; [exact Hx|].
    exact (Permutation_in _ (Permutation_sym (select_all_desc_perm t')) Hin).
Qed.

Lemma deleted_task_never_returns_witness :
  let r := Task 1 "buy milk" (SqlInteger 0) "2024-01-01 10:00:00" in
  let t := Table [r; Task 2 "walk the dog" (SqlInteger 1) "2024-01-02 08:30:00"] 2 in
  exists t',
    delete_task (id r) (store t)
    = (Ok (Response (JObject [("message", JString "Task deleted successfully")]) 200),
       store t')
    /\ forall (rqs : list request) (outs : list (result response)) (file : database),
         serve rqs (store t') = (outs, file) ->
         (exists l,
             get_tasks file = (Ok (Response (JArray (map task_data l)) 200), file)
             /\ ~ In (id r) (map id l))
         /\ (forall r', In (Ok (Response (task_data r') 201)) outs -> id r' <> id r).
Proof.
  intros r t. apply (deleted_task_never_returns t r).
  - reflexivity.
  - simpl. left. reflexivity.
Defined.

(** *** Descriptions in the table *)

Lemma get_description_ok (data : json) (d : string) :
  get_description data = Ok d ->
  d = ""
  \/ exists m s, data = JObject m
                 /\ dict_lookup "description" m = Some (JString s)
                 /\ d = PyStr.strip s.
Proof.
  unfold get_description. destruct data as [| | | | |m]; try discriminate.
  destruct (dict_lookup "description" m) as [[| | |s| |]|] eqn:E; try discriminate.
  - intros [= <-]. right. now exists m, s.
  - intros [= <-]. now left.
Qed.

Lemma clean_strip (s : string) : PyStr.strip s <> "" -> clean (PyStr.strip s) = true.
Proof.
  intros H. unfold clean. rewrite PyStrFacts.strip_not_surrounded.
  apply String.eqb_neq in H. now rewrite H.
Qed.

Lemma clean_table_update (v : sqlvalue) (k : Z) (t : table) :
  clean_table (update_completed v k t) = clean_table t.
Proof.
  unfold clean_table, update_completed. simpl.
  induction (rows t) as [|x rs IH]; simpl; [reflexivity|].
  rewrite IH. now destruct (id x =? k).
Qed.

Lemma clean_table_delete (k : Z) (t : table) :
  clean_table t = true -> clean_table (delete_by_id k t) = true.
Proof.
  unfold clean_table, delete_by_id. simpl. rewrite !forallb_forall.
  intros H x Hx. apply filter_In in Hx. now apply H.
Qed.

Lemma clean_table_insert (d : string) (v : sqlvalue) (now : string) (t t' : table) (k : Z) :
  clean_table t = true -> clean d = true ->
  insert_task d v now t = Some (k, t') -> clean_table t' = true.
Proof.
  intros Ht Hd H. apply insert_task_rows in H. subst t'.
  unfold clean_table in *. simpl. rewrite forallb_app, Ht. simpl. now rewrite Hd.
Qed.

Lemma handle_without_table (rq : request) : snd (handle rq blank_file) = blank_file.
Proof.
  destruct rq as [|data now|k|k]; try reflexivity.
  cbn [handle]. unfold add_task.
  destruct (get_description data) as [d|e]; [|reflexivity].
  destruct (String.eqb d ""); reflexivity.
Qed.

Lemma handle_clean (rq : request) (file : database) :
  clean_file file = true -> clean_file (snd (handle rq file)) = true.
Proof.
  destruct file as [[t|]];
    [|intros _; change (Database None) with blank_file;
      now rewrite (handle_without_table rq)].
  change (Database (Some t)) with (store t). unfold clean_file at 1. simpl.
  intros Ht. destruct rq as [|data now|k|k]; cbn [handle].
  - now rewrite get_tasks_store.
  - rewrite add_task_store.
    destruct (get_description data) as [d|e] eqn:Ed; [|exact Ht].
    destruct (String.eqb_spec d "") as [Hd|Hd]; [exact Ht|].
    destruct (insert_task d (bind_bool false) now t) as [[k t']|] eqn:E; [|exact Ht].
    assert (clean_table t' = true) as Ht'.
    { apply (clean_table_insert _ _ _ _ _ _ Ht) in E; [exact E|].
      destruct (get_description_ok _ _ Ed) as [->|[m [s [_ [_ ->]]]]]; [contradiction|].
      now apply clean_strip. }
    destruct (in_int64 k); [|exact Ht].
    destruct (select_by_id k t'); exact Ht'.
  - rewrite complete_task_store. destruct (in_int64 k); [|exact Ht].
    destruct (select_by_id k t); [|exact Ht].
    unfold clean_file. simpl. now rewrite clean_table_update.
  - rewrite delete_task_store. destruct (in_int64 k); [|exact Ht].
    destruct (select_by_id k t); [|exact Ht].
    unfold clean_file. simpl. now apply clean_table_delete.
Qed.

Lemma serve_clean (rqs : list request) :
  forall file, clean_file file = true -> clean_file (snd (serve rqs file)) = true.
Proof.
  induction rqs as [|rq rqs IH]; intros file Hf; simpl; [exact Hf|].
  pose proof (handle_clean rq file Hf) as H1.
  destruct (handle rq file) as [out file1]. simpl in H1.
  specialize (IH file1 H1).
  destruct (serve rqs file1) as [outs file2]. exact IH.
Qed.

Lemma add_task_accepted (data : json) (now : string) (file : database) :
  http_status (fst (add_task data now file)) = 201 ->
  exists m s t r,
    data = JObject m
    /\ dict_lookup "description" m = Some (JString s)
    /\ tasks file = Some t
    /\ tasks (snd (add_task data now file)) = Some (Table (rows t ++ [r]) (id r))
    /\ description r = PyStr.strip s
    /\ clean (description r) = true.
Proof.
  destruct file as [[t|]].
  - change (Database (Some t)) with (store t). rewrite add_task_store.
    destruct (get_description data) as [d|e] eqn:Ed; [|discriminate].
    destruct (String.eqb_spec d "") as [Hd|Hd]; [discriminate|].
    destruct (insert_task d (bind_bool false) now t) as [[k t']|] eqn:E; [|discriminate].
    destruct (in_int64 k); [|discriminate].
    destruct (select_by_id k t') as [r0|]; [|discriminate].
    intros _. apply insert_task_rows in E. subst t'.
    destruct (get_description_ok _ _ Ed) as [->|[m [s [-> [Hm ->]]]]]; [contradiction|].
    exists m, s, t, (Task k (PyStr.strip s) (bind_bool false) now).
    repeat split; try assumption. simpl. now apply clean_strip.
  - unfold add_task. destruct (get_description data) as [d|e]; [|discriminate].
    destruct (String.eqb d ""); discriminate.
Qed.

(** C9. For every accepted [POST /add], the description persisted is the
    description submitted with its leading and trailing whitespace removed.
    Hence every stored description is non-empty and carries no whitespace at
    either end: this holds of the store [init_db] creates, every request and
    [init_db] itself keep it, and so it holds after any sequence of
    requests. *)
Theorem stored_descriptions_are_stripped :
  (forall data now file,
      http_status (fst (add_task data now file)) = 201 ->
      exists m s t r,
        data = JObject m
        /\ dict_lookup "description" m = Some (JString s)
        /\ tasks file = Some t
        /\ tasks (snd (add_task data now file)) = Some (Table (rows t ++ [r]) (id r))
        /\ description r = PyStr.strip s
        /\ clean (description r) = true)
  /\ clean_file (snd (init_db blank_file)) = true
  /\ (forall file, clean_file file = true -> clean_file (snd (init_db file)) = true)
  /\ (forall rq file, clean_file file = true -> clean_file (snd (handle rq file)) = true)
  /\ (forall rqs file, clean_file file = true -> clean_file (snd (serve rqs file)) = true).
Proof.
  split; [exact add_task_accepted|]. split; [reflexivity|].
  split; [|split; [exact handle_clean|exact serve_clean]].
  intros [[t|]] H; [exact H|reflexivity].
Qed.

Lemma stored_descriptions_are_stripped_witness :
  let data := JObject [("description", JString "  buy milk ")] in
  let now := "2024-01-01 10:00:00" in
  let file := store empty_table in
  exists m s t r,
    data = JObject m
    /\ dict_lookup "description" m = Some (JString s)
    /\ tasks file = Some t
    /\ tasks (snd (add_task data now file)) = Some (Table (rows t ++ [r]) (id r))
    /\ description r = PyStr.strip s
    /\ clean (description r) = true.
Proof.
  intros data now file.
  apply (proj1 stored_descriptions_are_stripped data now file).
  reflexivity.
Defined.

(** C10. In every response that contains a Task (list, add, toggle) the
    Task is the serialisation of a stored row, and its [completed] member is
    the truth value of the stored value: true for a nonzero integer, false
    for zero (and for NULL).  A toggle stores the negation of that truth
    value as the integer 1 or 0, never another integer. *)
Theorem completed_is_truth_value (t : table) (r : task) :
  valid t = true -> In r (rows t) ->
  member "completed" (task_data r)
  = Some (JBool (match completed r with
                 | SqlInteger z => negb (z =? 0)
                 | SqlNull => false
                 end))
  /\ (exists l,
        get_tasks (store t) = (Ok (Response (JArray (map task_data l)) 200), store t)
        /\ Permutation (rows t) l)
  /\ (exists r' t',
        complete_task (id r) (store t) = (Ok (Response (task_data r') 200), store t')
        /\ select_by_id (id r) t' = Some r'
        /\ completed r' = SqlInteger (if py_bool (completed r) then 0 else 1)
        /\ member "completed" (task_data r') = Some (JBool (negb (py_bool (completed r)))))
  /\ (forall data now,
        http_status (fst (add_task data now (store t))) = 201 ->
        exists r0 t0,
          add_task data now (store t) = (Ok (Response (task_data r0) 201), store t0)
          /\ In r0 (rows t0)
          /\ completed r0 = SqlInteger 0
          /\ member "completed" (task_data r0) = Some (JBool false)).
Proof.
  intros Hv Hr.
  pose proof (valid_in_int64 _ _ Hv Hr) as Hk.
  assert (select_by_id (id r) t = Some r) as Hs.
  { apply select_by_id_present; [|exact Hr]. now apply valid_spec in Hv. }
  split; [rewrite member_completed; now destruct (completed r)|].
  split; [exists (select_all_desc t); split;
          [apply get_tasks_store|apply select_all_desc_perm]|].
  split.
  - exists (toggled r), (update_completed (completed (toggled r)) (id r) t).
    split; [now rewrite complete_task_store, Hk, Hs|].
    split; [now rewrite (select_update _ _ _ _ Hs)|].
    split; [simpl; unfold bind_bool; now destruct (py_bool (completed r))|].
    simpl. now destruct (py_bool (completed r)).
  - intros data now.
    destruct (get_description data) as [d|e] eqn:Ed;
      [|rewrite add_task_store, Ed; discriminate].
    destruct (String.eqb_spec d "") as [Hd|Hd].
    + rewrite add_task_store, Ed. subst d. discriminate.
    + rewrite (add_task_valid data now d t Hv Ed Hd).
      destruct (new_rowid t) as [k|]; [|discriminate].
      intros _. eexists. eexists. split; [reflexivity|].
      split; [|split; reflexivity].
      simpl. apply in_or_app. right. now left.
Qed.

Lemma completed_is_truth_value_witness :
  let r := Task 1 "buy milk" (SqlInteger 5) "2024-01-01 10:00:00" in
  let t := Table [r] 1 in
  member "completed" (task_data r) = Some (JBool true)
  /\ exists r' t',
       complete_task (id r) (store t) = (Ok (Response (task_data r') 200), store t')
       /\ select_by_id (id r) t' = Some r'
       /\ completed r' = SqlInteger 0.
Proof.
  intros r t.
  destruct (completed_is_truth_value t r) as [Hm [_ [Ht _]]].
  - reflexivity.
  - simpl. left. reflexivity.
  - split; [exact Hm|].
    destruct Ht as [r' [t' [H1 [H2 [H3 _]]]]]. exists r', t'. auto.
Defined.

(** ** Further properties of the handlers *)

(** *** One row among rows of other keys *)

Lemma other_keys (before after : list task) (r : task) :
  NoDup (map id (before ++ r :: after)) ->
  forall x, In x before \/ In x after -> (id x =? id r) = false.
Proof.
  intros Hd x Hx. rewrite map_app in Hd. simpl in Hd.
  apply Z.eqb_neq. intros Heq.
  apply NoDup_remove_2 in Hd. apply Hd. rewrite <- Heq.
  apply in_or_app. destruct Hx; [left|right]; now apply in_map.
Qed.

Lemma update_in_place (v : sqlvalue) (before after : list task) (r : task) (s : Z) :
  NoDup (map id (before ++ r :: after)) ->
  update_completed v (id r) (Table (before ++ r :: after) s)
  = Table (before ++ Task (id r) (description r) v (created_at r) :: after) s.
Proof.
  intros Hd. pose proof (other_keys _ _ _ Hd) as Ho.
  unfold update_completed. simpl. f_equal.
  rewrite map_app. simpl. rewrite Z.eqb_refl. f_equal; [|f_equal].
  - rewrite <- (map_id before) at 2. apply map_ext_in.
    intros x Hx. now rewrite Ho by auto.
  - rewrite <- (map_id after) at 2. apply map_ext_in.
    intros x Hx. now rewrite Ho by auto.
Qed.

Lemma delete_in_place (before after : list task) (r : task) (s : Z) :
  NoDup (map id (before ++ r :: after)) ->
  delete_by_id (id r) (Table (before ++ r :: after) s) = Table (before ++ after) s.
Proof.
  intros Hd. pose proof (other_keys _ _ _ Hd) as Ho.
  unfold delete_by_id. simpl. f_equal.
  assert (forall l, (forall x, In x l -> (id x =? id r) = false) ->
                    filter (fun x => negb (id x =? id r)) l = l) as Hkeep.
  { induction l as [|x l IH]; simpl; [reflexivity|]. intros H.
    rewrite (H x (or_introl eq_refl)). simpl. f_equal. apply IH.
    intros y Hy. apply H. now right. }
  rewrite filter_app. simpl. rewrite Z.eqb_refl. simpl.
  rewrite !Hkeep by auto. reflexivity.
Qed.

Lemma present_row (t : table) (r : task) :
  valid t = true -> In r (rows t) ->
  in_int64 (id r) = true /\ select_by_id (id r) t = Some r.
Proof.
  intros Hv Hr. split; [exact (valid_in_int64 _ _ Hv Hr)|].
  apply select_by_id_present; [|exact Hr]. now apply valid_spec in Hv.
Qed.

(** X1. A successful [DELETE /delete/<id>] removes the row of that task and
    nothing else: the rows before it and after it stay, in their order, and
    the key sequence is not touched. *)
Theorem delete_removes_only_that_row (t : table) (r : task) :
  valid t = true -> In r (rows t) ->
  exists before after,
    rows t = before ++ r :: after
    /\ delete_task (id r) (store t)
       = (Ok (Response (JObject [("message", JString "Task deleted successfully")]) 200),
          store (Table (before ++ after) (seq t))).
Proof.
  intros Hv Hr. destruct (present_row _ _ Hv Hr) as [Hk Hs].
  apply valid_spec in Hv. destruct Hv as [Hd _].
  destruct (in_split _ _ Hr) as [before [after E]].
  exists before, after. split; [exact E|].
  rewrite delete_task_store, Hk, Hs.
  unfold ids in Hd. rewrite E in Hd.
  rewrite <- (delete_in_place before after r (seq t) Hd), <- E.
  now destruct t.
Qed.

Lemma delete_removes_only_that_row_witness :
  let r1 := Task 1 "buy milk" (SqlInteger 0) "2024-01-01 10:00:00" in
  let r2 := Task 2 "walk the dog" (SqlInteger 1) "2024-01-02 08:30:00" in
  let r3 := Task 5 "call home" (SqlInteger 0) "2024-01-03 08:30:00" in
  let t := Table [r1; r2; r3] 5 in
  exists before after,
    rows t = before ++ r2 :: after
    /\ delete_task (id r2) (store t)
       = (Ok (Response (JObject [("message", JString "Task deleted successfully")]) 200),
          store (Table (before ++ after) (seq t))).
Proof.
  intros r1 r2 r3 t. apply (delete_removes_only_that_row t r2).
  - reflexivity.
  - simpl. right. left. reflexivity.
Defined.

(** X2. Once a task has been deleted, toggling it and deleting it again are
    both answered 404 with [{"error": "Task not found"}], and neither changes
    the file. *)
Theorem deleted_task_is_not_found (t : table) (r : task) :
  valid t = true -> In r (rows t) ->
  let file := snd (delete_task (id r) (store t)) in
  complete_task (id r) file
  = (Ok (Response (JObject [("error", JString "Task not found")]) 404), file)
  /\ delete_task (id r) file
     = (Ok (Response (JObject [("error", JString "Task not found")]) 404), file).
Proof.
  intros Hv Hr. destruct (present_row _ _ Hv Hr) as [Hk Hs].
  cbv zeta. rewrite delete_task_store, Hk, Hs. simpl.
  pose proof (delete_absent (id r) t) as Hn. apply select_by_id_none in Hn.
  now rewrite complete_task_store, delete_task_store, Hk, Hn.
Qed.

Lemma deleted_task_is_not_found_witness :
  let r := Task 2 "walk the dog" (SqlInteger 1) "2024-01-02 08:30:00" in
  let t := Table [Task 1 "buy milk" (SqlInteger 0) "2024-01-01 10:00:00"; r] 2 in
  let file := snd (delete_task (id r) (store t)) in
  complete_task (id r) file
  = (Ok (Response (JObject [("error", JString "Task not found")]) 404), file)
  /\ delete_task (id r) file
     = (Ok (Response (JObject [("error", JString "Task not found")]) 404), file).
Proof.
  intros r t. apply (deleted_task_is_not_found t r).
  - reflexivity.
  - simpl. right. left. reflexivity.
Defined.

(** X3. For a task whose stored [completed] is 0 or 1, as every task the
    service created or toggled has it, two toggles in a row give back the
    file exactly as it was. *)
Theorem toggle_twice_restores_file (t : table) (r : task) (b : bool) :
  valid t = true -> In r (rows t) -> completed r = bind_bool b ->
  snd (complete_task (id r) (snd (complete_task (id r) (store t)))) = store t.
Proof.
  intros Hv Hr Hb. destruct (present_row _ _ Hv Hr) as [Hk Hs].
  rewrite complete_task_store, Hk, Hs. simpl snd.
  rewrite complete_task_store, Hk, (select_update _ _ _ _ Hs). simpl snd.
  apply valid_spec in Hv. destruct Hv as [Hd _].
  destruct (in_split _ _ Hr) as [before [after E]].
  unfold ids in Hd. rewrite E in Hd.
  destruct t as [rs s]. simpl in E. subst rs. f_equal. f_equal.
  rewrite (update_in_place _ before after r s Hd).
  set (r1 := Task (id r) (description r)
               (bind_bool (negb (py_bool (completed r)))) (created_at r)).
  assert (NoDup (map id (before ++ r1 :: after))) as Hd1.
  { rewrite map_app in *. exact Hd. }
  change (id r) with (id r1) at 1.
  simpl completed.
  rewrite (update_in_place _ before after r1 s Hd1). simpl.
  f_equal. f_equal. f_equal.
  destruct r as [k d c ts]. simpl in *. subst c. now destruct b.
Qed.

Lemma toggle_twice_restores_file_witness :
  let r := Task 2 "walk the dog" (SqlInteger 1) "2024-01-02 08:30:00" in
  let t := Table [Task 1 "buy milk" (SqlInteger 0) "2024-01-01 10:00:00"; r] 2 in
  snd (complete_task (id r) (snd (complete_task (id r) (store t)))) = store t.
Proof.
  intros r t. apply (toggle_twice_restores_file t r true).
  - reflexivity.
  - simpl. right. left. reflexivity.
  - reflexivity.
Defined.

(** X4. [POST /add] with a body that is not an object, or whose
    [description] is present and is not a string (a number, [null], a list),
    raises [AttributeError]: the client is served a server error, not the 400
    of an empty description, and nothing is stored. *)
Theorem malformed_body_raises (data : json) (now : string) (file : database) :
  malformed data = true ->
  add_task data now file = (Raise AttributeError, file)
  /\ http_status (fst (add_task data now file)) = 500.
Proof.
  intros H. unfold add_task, get_description.
  destruct data as [| | | | |m]; try (split; reflexivity).
  simpl in H.
  destruct (dict_lookup "description" m) as [[| | | | |]|];
    try discriminate; split; reflexivity.
Qed.

Lemma malformed_body_raises_witness :
  let data := JObject [("description", JNull)] in
  let file := store (Table [Task 1 "buy milk" (SqlInteger 0) "2024-01-01 10:00:00"] 1) in
  add_task data "2024-01-01 10:00:05" file = (Raise AttributeError, file)
  /\ http_status (fst (add_task data "2024-01-01 10:00:05" file)) = 500.
Proof.
  intros data file. apply malformed_body_raises. reflexivity.
Defined.

(** *** What a request can do to the file *)

Lemma handle_store (rq : request) (t : table) :
  exists t', snd (handle rq (store t)) = store t'.
Proof.
  destruct rq as [|data now|k|k]; cbn [handle].
  - exists t. now rewrite get_tasks_store.
  - rewrite add_task_store.
    destruct (get_description data) as [d|e]; [|now exists t].
    destruct (String.eqb d ""); [now exists t|].
    destruct (insert_task d (bind_bool false) now t) as [[k t']|]; [|now exists t].
    destruct (in_int64 k); [|now exists t].
    destruct (select_by_id k t'); now exists t'.
  - rewrite complete_task_store. destruct (in_int64 k); [|now exists t].
    destruct (select_by_id k t); [eexists; reflexivity|now exists t].
  - rewrite delete_task_store. destruct (in_int64 k); [|now exists t].
    destruct (select_by_id k t); [eexists; reflexivity|now exists t].
Qed.

Lemma serve_store (rqs : list request) :
  forall t, exists t', snd (serve rqs (store t)) = store t'.
Proof.
  induction rqs as [|rq rqs IH]; intros t; simpl; [now exists t|].
  destruct (handle_store rq t) as [t1 H1].
  destruct (handle rq (store t)) as [out file1]. simpl in H1. subst file1.
  destruct (IH t1) as [t' H']. destruct (serve rqs (store t1)). now exists t'.
Qed.

(** X5. A request that is not answered 200 or 201 leaves the file exactly as
    it was, table or no table: what a handler wrote before it raised is not
    committed.  So does [GET /api/tasks], whatever it answers. *)
Theorem failed_request_keeps_file (rq : request) (file : database) :
  (http_status (fst (handle rq file)) <> 200
   /\ http_status (fst (handle rq file)) <> 201
   \/ rq = GetTasks) ->
  snd (handle rq file) = file.
Proof.
  destruct file as [[t|]];
    [|intros _; change (Database None) with blank_file; apply handle_without_table].
  change (Database (Some t)) with (store t).
  intros [[H200 H201]| ->]; [|reflexivity].
  destruct rq as [|data now|k|k]; cbn [handle] in *.
  - reflexivity.
  - rewrite add_task_store in *.
    destruct (get_description data) as [d|e]; [|reflexivity].
    destruct (String.eqb d ""); [reflexivity|].
    destruct (insert_task d (bind_bool false) now t) as [[k t']|] eqn:E; [|reflexivity].
    destruct (in_int64 k); [|reflexivity].
    pose proof (select_after_insert _ _ _ _ _ _ E) as Hs.
    destruct (select_by_id k t'); [|contradiction].
    simpl in H201. contradiction.
  - rewrite complete_task_store in *. destruct (in_int64 k); [|reflexivity].
    destruct (select_by_id k t); [|reflexivity]. simpl in H200. contradiction.
  - rewrite delete_task_store in *. destruct (in_int64 k); [|reflexivity].
    destruct (select_by_id k t); [|reflexivity]. simpl in H200. contradiction.
Qed.

Lemma failed_request_keeps_file_witness :
  let file := store (Table [Task 1 "buy milk" (SqlInteger 0) "2024-01-01 10:00:00"]
                       MAX_ROWID) in
  let rq := AddTask (JObject [("description", JString "walk the dog")])
              "2024-01-02 08:30:00" in
  http_status (fst (handle rq file)) = 500 /\ snd (handle rq file) = file.
Proof.
  intros file rq. split; [reflexivity|].
  apply (failed_request_keeps_file rq file).
  left. split; vm_compute; discriminate.
Defined.

(** X6. As long as [init_db] has not run there is no table, and no request
    succeeds: every one is answered 400 (an add without a description) or
    with a server error, and the file stays without a table. *)
Theorem no_request_succeeds_without_table (rq : request) :
  snd (handle rq blank_file) = blank_file
  /\ (http_status (fst (handle rq blank_file)) = 400
      \/ http_status (fst (handle rq blank_file)) = 500).
Proof.
  split; [apply handle_without_table|].
  destruct rq as [|data now|k|k]; try (right; reflexivity).
  cbn [handle]. unfold add_task.
  destruct (get_description data) as [d|e]; [|right; reflexivity].
  destruct (String.eqb d ""); [left|right]; reflexivity.
Qed.

(** X7. Once the program has started, that is after [init_db] on whatever
    file it found, the table is there and no request removes it: after any
    sequence of requests [GET /api/tasks] is answered 200 with a list. *)
Theorem started_service_lists (file : database) (rqs : list request) :
  exists t l,
    snd (serve rqs (startup file)) = store t
    /\ get_tasks (store t) = (Ok (Response (JArray (map task_data l)) 200), store t)
    /\ Permutation (rows t) l.
Proof.
  assert (exists t0, startup file = store t0) as [t0 ->].
  { destruct file as [[t0|]]; [now exists t0|now exists empty_table]. }
  destruct (serve_store rqs t0) as [t Ht]. exists t, (select_all_desc t).
  split; [exact Ht|]. split; [apply get_tasks_store|apply select_all_desc_perm].
Qed.

(** *** Keys along a sequence of requests *)

Lemma handle_valid (rq : request) (t : table) :
  valid t = true ->
  exists t',
    snd (handle rq (store t)) = store t'
    /\ valid t' = true
    /\ seq t <= seq t'
    /\ forall k, created_id (fst (handle rq (store t))) = Some k ->
                 seq t < k <= seq t'.
Proof.
  intros Hv. destruct rq as [|data now|j|j]; cbn [handle].
  - exists t. rewrite get_tasks_store. repeat split; auto; try lia; discriminate.
  - destruct (get_description data) as [d|e] eqn:Ed.
    + destruct (String.eqb_spec d "") as [Hd|Hd].
      * exists t. rewrite add_task_store, Ed. subst d. simpl.
        repeat split; auto; try lia; discriminate.
      * rewrite (add_task_valid data now d t Hv Ed Hd).
        destruct (new_rowid t) as [k'|] eqn:E.
        -- destruct (new_rowid_fresh _ _ E) as [Hseq _].
           eexists. split; [reflexivity|]. split; [|split].
           ++ apply (valid_insert d (SqlInteger 0) now t _ k' Hv).
              unfold insert_task. now rewrite E.
           ++ simpl. lia.
           ++ simpl. intros k [= <-]. lia.
        -- exists t. repeat split; auto; try lia; discriminate.
    + exists t. rewrite add_task_store, Ed. repeat split; auto; try lia; discriminate.
  - rewrite complete_task_store. destruct (in_int64 j).
    + destruct (select_by_id j t) as [r|].
      * eexists. split; [reflexivity|]. rewrite valid_update. simpl.
        repeat split; auto; try lia; discriminate.
      * exists t. repeat split; auto; try lia; discriminate.
    + exists t. repeat split; auto; try lia; discriminate.
  - rewrite delete_task_store. destruct (in_int64 j).
    + destruct (select_by_id j t) as [r|].
      * eexists. split; [reflexivity|]. split; [now apply valid_delete|]. simpl.
        repeat split; try lia; discriminate.
      * exists t. repeat split; auto; try lia; discriminate.
    + exists t. repeat split; auto; try lia; discriminate.
Qed.

Lemma serve_valid (rqs : list request) :
  forall (t : table) (outs : list (result response)) (file : database),
  valid t = true ->
  serve rqs (store t) = (outs, file) ->
  exists t',
    file = store t'
    /\ valid t' = true
    /\ seq t <= seq t'
    /\ Forall (fun k => seq t < k <= seq t') (created_ids outs)
    /\ StronglySorted Z.lt (created_ids outs).
Proof.
  induction rqs as [|rq rqs IH]; intros t outs file Hv Hs; simpl in Hs.
  - injection Hs as <- <-. exists t. simpl.
    repeat split; auto; try lia; constructor.
  - destruct (handle_valid rq t Hv) as [t1 [Ht1 [Hv1 [Hseq1 Hid]]]].
    destruct (handle rq (store t)) as [out file1]. simpl in Ht1, Hid. subst file1.
    destruct (serve rqs (store t1)) as [outs' file'] eqn:Es.
    injection Hs as <- <-.
    destruct (IH t1 outs' file' Hv1 Es) as [t' [-> [Hv' [Hseq' [Hall Hsorted]]]]].
    exists t'. split; [reflexivity|]. split; [exact Hv'|]. split; [lia|].
    assert (Forall (fun k => seq t < k <= seq t') (created_ids outs')) as Hall'.
    { eapply Forall_impl; [|exact Hall]. simpl. intros k Hk. lia. }
    simpl. destruct (created_id out) as [k|]; [|now split].
    specialize (Hid k eq_refl). split.
    + constructor; [lia|exact Hall'].
    + constructor; [exact Hsorted|].
      eapply Forall_impl; [|exact Hall]. simpl. intros k' Hk'. lia.
Qed.

(** X8. What the store guarantees of the table is kept along any sequence of
    requests: the keys stay distinct and within 64 bits, none exceeds the key
    sequence, and the sequence never goes down, deletions included. *)
Theorem requests_keep_table_valid
    (t : table) (rqs : list request) (outs : list (result response))
    (file : database) :
  valid t = true ->
  serve rqs (store t) = (outs, file) ->
  exists t',
    file = store t'
    /\ NoDup (ids t')
    /\ (forall k, In k (ids t') -> MIN_ROWID <= k <= seq t')
    /\ seq t <= seq t' <= MAX_ROWID.
Proof.
  intros Hv Hs.
  destruct (serve_valid rqs t outs file Hv Hs) as [t' [-> [Hv' [Hseq _]]]].
  apply valid_spec in Hv'. destruct Hv' as [Hd [Hb Hm]].
  exists t'. repeat split; auto; try lia; now apply Hb.
Qed.

Lemma requests_keep_table_valid_witness :
  let t := Table [Task 1 "buy milk" (SqlInteger 0) "2024-01-01 10:00:00"] 1 in
  let rqs := [ AddTask (JObject [("description", JString "walk the dog")])
                 "2024-01-02 08:30:00";
               DeleteTask 2;
               AddTask (JObject [("description", JString "call home")])
                 "2024-01-03 08:30:00" ] in
  exists t',
    snd (serve rqs (store t)) = store t'
    /\ NoDup (ids t')
    /\ (forall k, In k (ids t') -> MIN_ROWID <= k <= seq t')
    /\ seq t <= seq t' <= MAX_ROWID.
Proof.
  intros t rqs.
  apply (requests_keep_table_valid t rqs (fst (serve rqs (store t)))); reflexivity.
Defined.

(** X9. The ids reported by the successful adds of any sequence of requests
    are strictly increasing in the order of the requests, and all lie above
    the key sequence the sequence started from: a key is never handed out
    twice, whatever was deleted in between. *)
Theorem created_ids_increase
    (t : table) (rqs : list request) (outs : list (result response))
    (file : database) :
  valid t = true ->
  serve rqs (store t) = (outs, file) ->
  StronglySorted Z.lt (created_ids outs)
  /\ Forall (fun k => seq t < k) (created_ids outs).
Proof.
  intros Hv Hs.
  destruct (serve_valid rqs t outs file Hv Hs) as [t' [_ [_ [_ [Hall Hsorted]]]]].
  split; [exact Hsorted|].
  eapply Forall_impl; [|exact Hall]. simpl. intros k Hk. lia.
Qed.

Lemma created_ids_increase_witness :
  let t := Table [Task 1 "buy milk" (SqlInteger 0) "2024-01-01 10:00:00"] 1 in
  let rqs := [ AddTask (JObject [("description", JString "walk the dog")])
                 "2024-01-02 08:30:00";
               DeleteTask 2;
               AddTask (JObject [("description", JString "call home")])
                 "2024-01-03 08:30:00" ] in
  created_ids (fst (serve rqs (store t))) = [2; 3]
  /\ StronglySorted Z.lt (created_ids (fst (serve rqs (store t))))
  /\ Forall (fun k => seq t < k) (created_ids (fst (serve rqs (store t)))).
Proof.
  intros t rqs. split; [reflexivity|].
  apply (created_ids_increase t rqs (fst (serve rqs (store t)))
           (snd (serve rqs (store t)))); reflexivity.
Defined.

(** *** Whitespace around a description *)

Lemma lstrip_all_space (s : string) : PyStr.all_space s = true -> PyStr.lstrip s = "".
Proof.
  induction s as [|c s IH]; simpl; [reflexivity|].
  destruct (PyStr.isspace c); [exact IH|discriminate].
Qed.

Lemma rstrip_all_space (s : string) : PyStr.all_space s = true -> PyStr.rstrip s = "".
Proof.
  induction s as [|c s IH]; simpl; [reflexivity|].
  destruct (PyStr.isspace c) eqn:E; [|discriminate].
  intros H. now rewrite (IH H).
Qed.

Lemma lstrip_split (s : string) :
  exists pre, s = (pre ++ PyStr.lstrip s)%string /\ PyStr.all_space pre = true.
Proof.
  induction s as [|c s [pre [E H]]]; simpl.
  - now exists "".
  - destruct (PyStr.isspace c) eqn:Ec.
    + exists (String c pre). simpl. rewrite Ec, H. split; [now rewrite <- E|reflexivity].
    + now exists "".
Qed.

Lemma rstrip_split (s : string) :
  exists post, s = (PyStr.rstrip s ++ post)%string /\ PyStr.all_space post = true.
Proof.
  induction s as [|c s [post [E H]]]; simpl.
  - now exists "".
  - destruct (PyStr.rstrip s) as [|c' r] eqn:Er.
    + simpl in E. subst s. destruct (PyStr.isspace c) eqn:Ec.
      * exists (String c post). simpl. now rewrite Ec, H.
      * now exists post.
    + exists post. split; [|exact H]. simpl in E |- *. congruence.
Qed.

Lemma rstrip_app_space (s post : string) :
  PyStr.all_space post = true ->
  PyStr.rstrip (s ++ post)%string = PyStr.rstrip s.
Proof.
  intros H. induction s as [|c s IH]; simpl.
  - now apply rstrip_all_space.
  - now rewrite IH.
Qed.

Lemma strip_padded (pre s post : string) :
  PyStr.all_space pre = true -> PyStr.all_space post = true ->
  PyStr.strip (pre ++ s ++ post)%string = PyStr.strip s.
Proof.
  intros Hpre Hpost. unfold PyStr.strip.
  induction pre as [|c pre IH]; simpl.
  - clear Hpre. induction s as [|c s IH]; simpl.
    + rewrite (lstrip_all_space _ Hpost). reflexivity.
    + destruct (PyStr.isspace c); [exact IH|].
      change (String c (s ++ post)%string) with (String c s ++ post)%string.
      now apply rstrip_app_space.
  - simpl in Hpre. destruct (PyStr.isspace c); [|discriminate]. now apply IH.
Qed.

(** X10. The description [add_task] goes on with is the submitted string
    less a prefix and a suffix that are whitespace only, nothing inside it is
    touched; and it is empty or clean of whitespace at both ends. *)
Theorem description_is_trimmed_submission
    (m : list (string * json)) (s d : string) :
  dict_lookup "description" m = Some (JString s) ->
  get_description (JObject m) = Ok d ->
  exists pre post,
    s = (pre ++ d ++ post)%string
    /\ PyStr.all_space pre = true
    /\ PyStr.all_space post = true
    /\ (d = "" \/ clean d = true).
Proof.
  intros Hm. unfold get_description. rewrite Hm. intros [= <-].
  destruct (lstrip_split s) as [pre [E1 Hpre]].
  destruct (rstrip_split (PyStr.lstrip s)) as [post [E2 Hpost]].
  exists pre, post. split; [|split; [exact Hpre|split; [exact Hpost|]]].
  - unfold PyStr.strip. now rewrite <- E2.
  - destruct (String.eqb_spec (PyStr.strip s) "") as [H|H]; [now left|right].
    now apply clean_strip.
Qed.

Lemma description_is_trimmed_submission_witness :
  exists pre post,
    "  buy  milk " = (pre ++ "buy  milk" ++ post)%string
    /\ PyStr.all_space pre = true
    /\ PyStr.all_space post = true
    /\ ("buy  milk" = "" \/ clean "buy  milk" = true).
Proof.
  apply (description_is_trimmed_submission
           [("description", JString "  buy  milk ")] "  buy  milk " "buy  milk");
    reflexivity.
Defined.

(** X11. Padding a description with whitespace in front and behind changes
    nothing: [POST /add] gives the same answer and the same file as for the
    description without the padding. *)
Theorem padding_is_ignored
    (m m' : list (string * json)) (pre s post now : string) (file : database) :
  dict_lookup "description" m = Some (JString s) ->
  dict_lookup "description" m' = Some (JString (pre ++ s ++ post)%string) ->
  PyStr.all_space pre = true -> PyStr.all_space post = true ->
  add_task (JObject m') now file = add_task (JObject m) now file.
Proof.
  intros Hm Hm' Hpre Hpost. unfold add_task, get_description.
  now rewrite Hm, Hm', (strip_padded pre s post Hpre Hpost).
Qed.

Lemma padding_is_ignored_witness :
  let file := store (Table [Task 1 "buy milk" (SqlInteger 0) "2024-01-01 10:00:00"] 1) in
  add_task (JObject [("description", JString "  walk the dog ")]) "2024-01-02 08:30:00" file
  = add_task (JObject [("description", JString "walk the dog")]) "2024-01-02 08:30:00" file.
Proof.
  intros file.
  apply (padding_is_ignored [("description", JString "walk the dog")]
           [("description", JString "  walk the dog ")]
           "  " "walk the dog" " "); reflexivity.
Defined.

(** *** When a request raises *)




(** *** Toggles of different tasks *)

Lemma update_commute (v1 v2 : sqlvalue) (k1 k2 : Z) (t : table) :
  k1 <> k2 ->
  update_completed v2 k2 (update_completed v1 k1 t)
  = update_completed v1 k1 (update_completed v2 k2 t).
Proof.
  intros Hk. unfold update_completed. simpl. f_equal.
  rewrite !map_map. apply map_ext. intros x.
  destruct (Z.eqb_spec (id x) k1) as [E1|E1];
    destruct (Z.eqb_spec (id x) k2) as [E2|E2]; simpl.
  - congruence.
  - destruct (Z.eqb_spec (id x) k2); [contradiction|].
    destruct (Z.eqb_spec (id x) k1); [reflexivity|contradiction].
  - destruct (Z.eqb_spec (id x) k2); [|contradiction].
    destruct (Z.eqb_spec (id x) k1); [contradiction|reflexivity].
  - destruct (Z.eqb_spec (id x) k2); [contradiction|].
    destruct (Z.eqb_spec (id x) k1); [contradiction|reflexivity].
Qed.

(** X13. Toggles of two different tasks do not interfere: whichever comes
    first, the file after both is the same, and each is answered as it would
    be on its own. *)
Theorem toggles_commute (t : table) (r1 r2 : task) :
  valid t = true -> In r1 (rows t) -> In r2 (rows t) -> id r1 <> id r2 ->
  snd (complete_task (id r2) (snd (complete_task (id r1) (store t))))
  = snd (complete_task (id r1) (snd (complete_task (id r2) (store t))))
  /\ fst (complete_task (id r2) (snd (complete_task (id r1) (store t))))
     = fst (complete_task (id r2) (store t)).
Proof.
  intros Hv H1 H2 Hne.
  destruct (present_row _ _ Hv H1) as [Hk1 Hs1].
  destruct (present_row _ _ Hv H2) as [Hk2 Hs2].
  rewrite (complete_task_store (id r1) t), Hk1, Hs1.
  rewrite (complete_task_store (id r2) t), Hk2, Hs2. simpl snd. simpl fst.
  rewrite !complete_task_store, Hk1, Hk2.
  rewrite (select_update_other _ (id r1) (id r2)) by congruence.
  rewrite (select_update_other _ (id r2) (id r1)) by congruence.
  rewrite Hs1, Hs2. simpl. split; [|reflexivity].
  now rewrite (update_commute _ _ (id r1) (id r2) t Hne).
Qed.

Lemma toggles_commute_witness :
  let r1 := Task 1 "buy milk" (SqlInteger 0) "2024-01-01 10:00:00" in
  let r2 := Task 2 "walk the dog" (SqlInteger 1) "2024-01-02 08:30:00" in
  let t := Table [r1; r2] 2 in
  snd (complete_task (id r2) (snd (complete_task (id r1) (store t))))
  = snd (complete_task (id r1) (snd (complete_task (id r2) (store t))))
  /\ fst (complete_task (id r2) (snd (complete_task (id r1) (store t))))
     = fst (complete_task (id r2) (store t)).
Proof.
  intros r1 r2 t. apply (toggles_commute t r1 r2).
  - reflexivity.
  - simpl. left. reflexivity.
  - simpl. right. left. reflexivity.
  - simpl. lia.
Defined.

(** *** The list and the table *)

(** X14. On a table the store vouches for, [GET /api/tasks] answers 200
    with one entry for each stored row and no other: the entries are the
    rows in some order, no id comes twice, and [created_at] never increases
    along the list. *)
Theorem list_shows_each_row_once (t : table) :
  valid t = true ->
  exists l,
    get_tasks (store t) = (Ok (Response (JArray (map task_data l)) 200), store t)
    /\ Permutation l (rows t)
    /\ NoDup (map id l)
    /\ StronglySorted created_desc l.
Proof.
  intros Hv. apply valid_spec in Hv. destruct Hv as [Hd _].
  exists (select_all_desc t).
  split; [apply get_tasks_store|].
  split; [symmetry; apply select_all_desc_perm|].
  split; [|apply select_all_desc_sorted].
  apply (Permutation_NoDup (l := ids t)); [|exact Hd].
  unfold ids. apply Permutation_map, select_all_desc_perm.
Qed.

Lemma list_shows_each_row_once_witness :
  let t := Table [Task 1 "buy milk" (SqlInteger 0) "2024-01-01 10:00:00";
                  Task 2 "walk the dog" (SqlInteger 1) "2024-01-02 08:30:00"] 2 in
  exists l,
    get_tasks (store t) = (Ok (Response (JArray (map task_data l)) 200), store t)
    /\ Permutation l (rows t)
    /\ NoDup (map id l)
    /\ StronglySorted created_desc l.
Proof.
  intros t. apply (list_shows_each_row_once t). reflexivity.
Defined.

(** X15. Deleting the task an add has just created gives back the rows as
    they were before the add; the key sequence alone keeps the trace, it
    stays at the key that was handed out. *)
Theorem add_then_delete_restores_rows
    (t : table) (m : list (string * json)) (s now : string) :
  valid t = true -> seq t <> MAX_ROWID ->
  dict_lookup "description" m = Some (JString s) ->
  PyStr.all_space s = false ->
  exists k,
    created_id (fst (add_task (JObject m) now (store t))) = Some k
    /\ seq t < k
    /\ delete_task k (snd (add_task (JObject m) now (store t)))
       = (Ok (Response (JObject [("message", JString "Task deleted successfully")]) 200),
          store (Table (rows t) k)).
Proof.
  intros Hv Hseq Hm Hs.
  destruct (new_rowid_available t Hv Hseq) as [k Hk].
  destruct (new_rowid_fresh _ _ Hk) as [Hlt Hfresh].
  pose proof (new_rowid_in_range _ _ Hv Hk) as Hr.
  assert (PyStr.strip s <> "") as Hne.
  { intros E. apply PyStrFacts.strip_empty_iff in E. congruence. }
  set (r := Task k (PyStr.strip s) (SqlInteger 0) now).
  assert (valid (Table (rows t ++ [r]) k) = true) as Hv'.
  { apply (valid_insert (PyStr.strip s) (SqlInteger 0) now t _ k Hv).
    unfold insert_task. now rewrite Hk. }
  exists k.
  rewrite (add_task_valid (JObject m) now (PyStr.strip s) t Hv);
    [|simpl; now rewrite Hm|exact Hne].
  rewrite Hk. cbv zeta. fold r.
  split; [reflexivity|]. split; [exact Hlt|]. simpl snd.
  rewrite delete_task_store.
  assert (in_int64 k = true) as ->. { apply in_int64_spec. lia. }
  pose proof (select_inserted t r Hfresh) as Hsel. cbn [id r] in Hsel.
  rewrite Hsel.
  apply valid_spec in Hv'. destruct Hv' as [Hd _]. unfold ids in Hd. simpl in Hd.
  pose proof (delete_in_place (rows t) [] r k Hd) as Hdel. cbn [id r] in Hdel.
  rewrite Hdel, app_nil_r. reflexivity.
Qed.

Lemma add_then_delete_restores_rows_witness :
  let t := Table [Task 1 "buy milk" (SqlInteger 1) "2024-01-01 10:00:00"] 3 in
  let data := JObject [("description", JString "  walk the dog ")] in
  exists k,
    created_id (fst (add_task data "2024-01-02 08:30:00" (store t))) = Some k
    /\ seq t < k
    /\ delete_task k (snd (add_task data "2024-01-02 08:30:00" (store t)))
       = (Ok (Response (JObject [("message", JString "Task deleted successfully")]) 200),
          store (Table (rows t) k)).
Proof.
  intros t data.
  apply (add_then_delete_restores_rows t [("description", JString "  walk the dog ")]
           "  walk the dog " "2024-01-02 08:30:00").
  - reflexivity.
  - unfold MAX_ROWID. simpl. lia.
  - reflexivity.
  - reflexivity.
Defined.
